(** * error-monitor: a Tail Worker that deduplicates, analyses and reports exceptions

    Shallow embedding of [src/index.ts].  The worker receives a batch of tail
    events, and for every event whose outcome is "exception" it extracts a
    context, drops junk URLs, fingerprints the context, asks the KV store
    whether the fingerprint was seen, and otherwise asks two AI models for a
    summary, posts a Slack message and stores the fingerprint.

    Layout of the development:
    - [Js]         : the fragment of JavaScript data and built-ins the worker uses
                     (values, property access, ToString, Date, JSON.stringify,
                     a matcher for the regular expressions of [IGNORE_PATTERNS]);
    - [Eff]        : the monad of effects (state of the outside world, exceptions,
                     trace of calls to the outside world), bindings and globals;
    - [Worker]     : the functions of [index.ts], one definition each;
    - [Mock]       : a concrete outside world (a [gmap] as the KV namespace) and
                     a few events;
    - [Obs]        : the vocabulary the properties are stated in;
    - [RegexFacts] : the strings the ignore patterns accept;
    - [Runs]       : what each function of the worker does on any outside world;
    - [Extraction] : when [extractContext] returns;
    - the properties of the worker, and the scenarios run on [Mock]. *)

From Stdlib Require Import ZArith Ascii String List Bool Lia DecimalString.
From Stdlib.Strings Require Import Byte.
From stdpp Require Import base option list strings gmap.

Import ListNotations.
Set Warnings "-register-all".
Local Open Scope string_scope.
Local Open Scope list_scope.
Local Open Scope Z_scope.

(* ===================================================================== *)
(** ** JavaScript data and built-ins *)
(* ===================================================================== *)

Module Js.

(** Strings are sequences of bytes: the UTF-8 encoding of the JavaScript
    string.  [TextEncoder.encode] is then the identity on the bytes. *)

(** Values that tail events, bindings' answers and the worker's own object
    literals are made of.  Numbers are the integer-valued ones and NaN, which
    is what timestamps and HTTP statuses need; an object is the list of its own
    properties in enumeration order (keys pairwise distinct; lookup takes the
    first). There are no functions, symbols or accessors in this data. *)
Inductive JsVal : Type :=
  | JUndefined
  | JNull
  | JBool (b : bool)
  | JNum (z : Z)
  | JNaN
  | JStr (s : string)
  | JArr (items : list JsVal)
  | JObj (props : list (string * JsVal)).

(** What a [throw] carries. [TypeError] and [RangeError] are raised by the
    built-ins, [Error_ msg] is [new Error(msg)], [Rejection v] is whatever an
    outside service throws or rejects with. *)
Inductive Thrown : Type :=
  | TypeError
  | RangeError
  | Error_ (msg : string)
  | Rejection (v : JsVal).

(** Completion of an evaluation: a value or a thrown exception. *)
Inductive Outcome (A : Type) : Type :=
  | Returns (a : A)
  | Throws (e : Thrown).
Arguments Returns {A} a.
Arguments Throws {A} e.

Definition obind {A B} (o : Outcome A) (f : A -> Outcome B) : Outcome B :=
  match o with
  | Returns a => f a
  | Throws e => Throws e
  end.

#[global] Instance Outcome_ret : MRet Outcome := fun A a => Returns a.
#[global] Instance Outcome_bind : MBind Outcome := fun A B f o => obind o f.

Definition returned {A} (o : Outcome A) : bool :=
  match o with Returns _ => true | Throws _ => false end.

(** [items.map(f)] where [f] may throw: left to right, up to the first throw. *)
Fixpoint mapOutcome {A B} (f : A -> Outcome B) (items : list A) : Outcome (list B) :=
  match items with
  | [] => Returns []
  | x :: rest =>
      y ← f x;
      ys ← mapOutcome f rest;
      Returns (y :: ys)
  end.

(** *** Strings *)

Definition dquote : ascii := "034"%char.
Definition newline : string := String "010"%char EmptyString.

(** [parts.join(sep)] on an array of strings. *)
Fixpoint join (sep : string) (parts : list string) : string :=
  match parts with
  | [] => ""
  | [p] => p
  | p :: rest => p +:+ sep +:+ join sep rest
  end.

(** Decimal digits of a natural number, and of an integer: Number::toString
    on an integer-valued number (below 10^21 in magnitude, where JavaScript
    prints every digit). *)
Definition N_to_dec (n : N) : string := NilZero.string_of_uint (N.to_uint n).

Definition numToString (z : Z) : string :=
  if z <? 0 then "-" +:+ N_to_dec (Z.abs_N z) else N_to_dec (Z.to_N z).

(** [s.padStart(width, "0")]. *)
Definition padStart0 (width : nat) (s : string) : string :=
  string_of_list_ascii (repeat "0"%char (width - String.length s)) +:+ s.

Definition hexDigit (n : N) : ascii :=
  match n with
  | 0%N => "0" | 1%N => "1" | 2%N => "2" | 3%N => "3"
  | 4%N => "4" | 5%N => "5" | 6%N => "6" | 7%N => "7"
  | 8%N => "8" | 9%N => "9" | 10%N => "a" | 11%N => "b"
  | 12%N => "c" | 13%N => "d" | 14%N => "e" | _ => "f"
  end%char.

(** [b.toString(16)] for a byte. *)
Definition byteToString16 (b : N) : string :=
  if (b <? 16)%N then String (hexDigit b) ""
  else String (hexDigit (b / 16)) (String (hexDigit (b mod 16)) "").

(** *** Conversions *)

(** ToBoolean. *)
Definition truthy (v : JsVal) : bool :=
  match v with
  | JUndefined | JNull | JNaN => false
  | JBool b => b
  | JNum z => negb (z =? 0)
  | JStr s => negb (String.eqb s "")
  | JArr _ | JObj _ => true
  end.

(** [a || b]. *)
Definition or_else (a b : JsVal) : JsVal := if truthy a then a else b.

Definition nullish (v : JsVal) : bool :=
  match v with JUndefined | JNull => true | _ => false end.

(** ToString, as a template literal applies it. An array is its elements
    joined by ",", with null and undefined elements left empty; a plain
    object is "[object Object]". *)
Fixpoint toString (v : JsVal) : string :=
  match v with
  | JUndefined => "undefined"
  | JNull => "null"
  | JBool true => "true"
  | JBool false => "false"
  | JNum z => numToString z
  | JNaN => "NaN"
  | JStr s => s
  | JArr items =>
      join "," (map (fun x => if nullish x then "" else toString x) items)
  | JObj _ => "[object Object]"
  end.

(** *** Property access *)

Fixpoint lookupProp (k : string) (props : list (string * JsVal)) : JsVal :=
  match props with
  | [] => JUndefined
  | (k', v) :: rest => if String.eqb k k' then v else lookupProp k rest
  end.

(** [v === s] for a string literal [s]. *)
Definition strictEqualsString (v : JsVal) (s : string) : bool :=
  match v with
  | JStr s' => String.eqb s' s
  | _ => false
  end.

(** [v.k]. Reading a property of null or undefined throws a TypeError; a
    primitive or an array has none of the properties the worker reads
    (none is an index, "length" or a method), so the result is undefined. *)
Definition getProp (v : JsVal) (k : string) : Outcome JsVal :=
  match v with
  | JUndefined | JNull => Throws TypeError
  | JObj props => Returns (lookupProp k props)
  | _ => Returns JUndefined
  end.

(** [v?.k]: undefined when [v] is null or undefined. *)
Definition getOpt (v : JsVal) (k : string) : JsVal :=
  match v with
  | JObj props => lookupProp k props
  | _ => JUndefined
  end.

(** *** Dates *)

(** The time value of a Date: milliseconds since the epoch, or NaN for an
    invalid date. *)
Definition TimeValue := option Z.

Definition maxTime : Z := 8640000000000000.

(** TimeClip: a time value beyond 8.64e15 ms from the epoch is invalid. *)
Definition timeClip (t : Z) : TimeValue :=
  if Z.abs t <=? maxTime then Some t else None.

Section Dates.

(** [Date.parse] on a string: implementation-defined outside the ISO
    format, so it is taken from the platform. *)
Variable Date_parse : string -> TimeValue.

(** [new Date(v)] for one argument: a string (or what converts to one, an
    array or object) is parsed, anything else goes through ToNumber. *)
Definition newDate (v : JsVal) : TimeValue :=
  match v with
  | JUndefined | JNaN => None
  | JNull => Some 0
  | JBool b => Some (if b then 1 else 0)
  | JNum z => timeClip z
  | JStr s => t ← Date_parse s; timeClip t
  | JArr _ | JObj _ => t ← Date_parse (toString v); timeClip t
  end.

End Dates.

Definition msPerDay : Z := 86400000.

(** Year, month and day of a day number counted from 1970-01-01, in the
    proleptic Gregorian calendar. *)
Definition civilFromDays (day : Z) : Z * Z * Z :=
  let z := day + 719468 in
  let era := z / 146097 in
  let doe := z mod 146097 in
  let yoe := (doe - doe / 1460 + doe / 36524 - doe / 146096) / 365 in
  let doy := doe - (365 * yoe + yoe / 4 - yoe / 100) in
  let mp := (5 * doy + 2) / 153 in
  let d := doy - (153 * mp + 2) / 5 + 1 in
  let m := if mp <? 10 then mp + 3 else mp - 9 in
  let y := yoe + era * 400 + (if m <=? 2 then 1 else 0) in
  (y, m, d).

Definition pad (width : nat) (z : Z) : string :=
  padStart0 width (N_to_dec (Z.to_N z)).

(** The year of an ISO string: four digits, or a sign and six digits outside
    0..9999. *)
Definition isoYear (y : Z) : string :=
  if (0 <=? y) && (y <=? 9999) then pad 4 y
  else if y <? 0 then "-" +:+ pad 6 (- y)
  else "+" +:+ pad 6 y.

Definition isoString (t : Z) : string :=
  let '(y, m, d) := civilFromDays (t / msPerDay) in
  let ms := t mod msPerDay in
  isoYear y +:+ "-" +:+ pad 2 m +:+ "-" +:+ pad 2 d +:+ "T" +:+
  pad 2 (ms / 3600000) +:+ ":" +:+ pad 2 (ms / 60000 mod 60) +:+ ":" +:+
  pad 2 (ms / 1000 mod 60) +:+ "." +:+ pad 3 (ms mod 1000) +:+ "Z".

(** [d.toISOString()]: a RangeError on an invalid date. *)
Definition toISOString (d : TimeValue) : Outcome string :=
  match d with
  | Some t => Returns (isoString t)
  | None => Throws RangeError
  end.

(** *** JSON.stringify *)

(** QuoteJSONString on the bytes of a well-formed string: the quote, the
    backslash and the control characters are escaped. *)
Definition escapeChar (c : ascii) : string :=
  let n := N_of_ascii c in
  if (n =? 34)%N then "\" +:+ String dquote ""
  else if (n =? 92)%N then "\\"
  else if (n =? 8)%N then "\b"
  else if (n =? 9)%N then "\t"
  else if (n =? 10)%N then "\n"
  else if (n =? 12)%N then "\f"
  else if (n =? 13)%N then "\r"
  else if (n <? 32)%N then
    "\u00" +:+ String (hexDigit (n / 16)) (String (hexDigit (n mod 16)) "")
  else String c "".

Fixpoint escapeString (s : string) : string :=
  match s with
  | EmptyString => ""
  | String c rest => escapeChar c +:+ escapeString rest
  end.

Definition quoteJSON (s : string) : string :=
  String dquote (escapeString s) +:+ String dquote "".

(** SerializeJSONProperty without indentation. [None] is the "undefined"
    result: such a property is left out of an object and printed as null in
    an array. NaN is printed as null. *)
Fixpoint serialize (v : JsVal) : option string :=
  match v with
  | JUndefined => None
  | JNull => Some "null"
  | JBool true => Some "true"
  | JBool false => Some "false"
  | JNum z => Some (numToString z)
  | JNaN => Some "null"
  | JStr s => Some (quoteJSON s)
  | JArr items =>
      Some ("[" +:+ join "," (map (fun x => default "null" (serialize x)) items) +:+ "]")
  | JObj props =>
      let member (kv : string * JsVal) : list string :=
        match serialize (snd kv) with
        | Some text => [quoteJSON (fst kv) +:+ ":" +:+ text]
        | None => []
        end in
      Some ("{" +:+ join "," (concat (map member props)) +:+ "}")
  end.

(** [JSON.stringify(v)] where [v] is an object literal: always a string. *)
Definition JSON_stringify (v : JsVal) : string := default "undefined" (serialize v).

(** *** Regular expressions *)

(** The fragment the patterns of the worker are written in: literal
    characters, a negated one-character class, [+] on either, and the
    assertions [^] and [$] (no [m] flag: start and end of the input). *)
Inductive CharClass : Type :=
  | Lit (c : ascii)
  | NotChar (c : ascii).

Inductive Term : Type :=
  | Bol
  | Eol
  | One (cc : CharClass)
  | Plus (cc : CharClass).

Definition Regex := list Term.

Definition accepts (cc : CharClass) (c : ascii) : bool :=
  match cc with
  | Lit a => Ascii.eqb c a
  | NotChar a => negb (Ascii.eqb c a)
  end.

(** One or more characters of the class, then the continuation [k]; the
    longest run is tried first. *)
Fixpoint plusLoop (cc : CharClass) (k : string -> bool) (s : string) : bool :=
  match s with
  | EmptyString => false
  | String c rest => accepts cc c && (plusLoop cc k rest || k rest)
  end.

(** Does [r] match a prefix of [s]? [atStart] tells whether [s] is the whole
    input. *)
Fixpoint matchHere (r : Regex) (atStart : bool) (s : string) : bool :=
  match r with
  | [] => true
  | Bol :: r' => atStart && matchHere r' atStart s
  | Eol :: r' => String.eqb s "" && matchHere r' atStart s
  | One cc :: r' =>
      match s with
      | EmptyString => false
      | String c rest => accepts cc c && matchHere r' false rest
      end
  | Plus cc :: r' => plusLoop cc (matchHere r' false) s
  end.

(** A match may start at any position of the input. *)
Fixpoint searchFrom (r : Regex) (atStart : bool) (s : string) : bool :=
  matchHere r atStart s ||
  match s with
  | EmptyString => false
  | String _ rest => searchFrom r false rest
  end.

(** [r.test(v)]: the argument is converted to a string first. The patterns
    have no [g] or [y] flag, so [test] keeps no state between calls. *)
Definition test (r : Regex) (v : JsVal) : bool := searchFrom r true (toString v).

Definition lits (s : string) : Regex := map (fun c => One (Lit c)) (list_ascii_of_string s).

End Js.

Import Js.

(* ===================================================================== *)
(** ** Effects *)
(* ===================================================================== *)

Module Eff.

(** The init object of [fetch] and the part of a [Response] the worker reads. *)
Record Request : Type := { rq_method : string; rq_headers : list (string * string); rq_body : string }.

Record Response : Type := { status : Z }.

(** [response.ok]: the status is in 200..299. *)
Definition ok (r : Response) : bool := (200 <=? status r) && (status r <=? 299).

(** Calls that leave the worker, each with what came back. *)
Inductive Effect : Type :=
  | ConsoleLog (msg : string)
  | ConsoleError (label : string) (error : Thrown)
  | Digest (algorithm : string) (data : list byte) (res : Outcome (list byte))
  | KvGet (key : string) (res : Outcome JsVal)
  | KvPut (key value : string) (expirationTtl : Z) (res : Outcome unit)
  | AiRun (model content : string) (res : Outcome JsVal)
  | Fetch (url : JsVal) (req : Request) (res : Outcome Response).

(** A computation of the worker: from a state of the outside world to a
    completion, the next state and the calls made, oldest first. *)
Definition M (Σ A : Type) : Type := Σ -> Outcome A * Σ * list Effect.

Section Monad.
Context {Σ : Type}.

Definition ret {A} (a : A) : M Σ A := fun σ => (Returns a, σ, []).

Definition bind {A B} (m : M Σ A) (f : A -> M Σ B) : M Σ B :=
  fun σ =>
    match m σ with
    | (Returns a, σ1, t1) => let '(r, σ2, t2) := f a σ1 in (r, σ2, t1 ++ t2)
    | (Throws e, σ1, t1) => (Throws e, σ1, t1)
    end.

(** [throw e]. *)
Definition throw {A} (e : Thrown) : M Σ A := fun σ => (Throws e, σ, []).

(** A pure evaluation that may throw. *)
Definition lift {A} (o : Outcome A) : M Σ A := fun σ => (o, σ, []).

(** [try { body } catch (error) { handler }]. *)
Definition try_catch {A} (body : M Σ A) (handler : Thrown -> M Σ A) : M Σ A :=
  fun σ =>
    match body σ with
    | (Returns a, σ1, t1) => (Returns a, σ1, t1)
    | (Throws e, σ1, t1) => let '(r, σ2, t2) := handler e σ1 in (r, σ2, t1 ++ t2)
    end.

(** One call to the outside world, recorded with its answer. *)
Definition call {A} (h : Σ -> Outcome A * Σ) (record : Outcome A -> Effect) : M Σ A :=
  fun σ => let '(r, σ1) := h σ in (r, σ1, [record r]).

Definition emit (e : Effect) : M Σ unit := fun σ => (Returns tt, σ, [e]).

End Monad.

#[global] Instance M_ret Σ : MRet (M Σ) := fun A a => ret a.
#[global] Instance M_bind Σ : MBind (M Σ) := fun A B f m => bind m f.

(** The bindings of the worker ([env]). *)
Record Env (Σ : Type) : Type := {
  ERROR_DEDUP_KV_get : string -> Σ -> Outcome JsVal * Σ;
  ERROR_DEDUP_KV_put : string -> string -> Z -> Σ -> Outcome unit * Σ;
  AI_run : string -> string -> Σ -> Outcome JsVal * Σ;
  SLACK_WEBHOOK_URL : JsVal
}.
Arguments ERROR_DEDUP_KV_get {Σ}.
Arguments ERROR_DEDUP_KV_put {Σ}.
Arguments AI_run {Σ}.
Arguments SLACK_WEBHOOK_URL {Σ}.

(** The globals of the runtime the worker calls. SHA-256 is a function of
    the message; a digest that rejects is a [Throws]. *)
Record Platform (Σ : Type) : Type := {
  Date_parse : string -> TimeValue;
  subtle_digest : string -> list byte -> Outcome (list byte);
  fetch : JsVal -> Request -> Σ -> Outcome Response * Σ
}.
Arguments Date_parse {Σ}.
Arguments subtle_digest {Σ}.
Arguments fetch {Σ}.

End Eff.

Import Eff.

(* ===================================================================== *)
(** ** The worker *)
(* ===================================================================== *)

Module Worker.

(** Don't send duplicate errors within this window (one hour). *)
Definition ERROR_WINDOW : Z := 60 * 60.

(** [/^favicon\.[^/]+$/], [/^robots\.txt$/], [/^apple-[^/]+\.png$/]. *)
Definition IGNORE_PATTERNS : list Regex :=
  [ [Bol] ++ lits "favicon" ++ [One (Lit "."); Plus (NotChar "/"); Eol];
    [Bol] ++ lits "robots" ++ [One (Lit ".")] ++ lits "txt" ++ [Eol];
    [Bol] ++ lits "apple-" ++ [Plus (NotChar "/"); One (Lit ".")] ++ lits "png" ++ [Eol] ]%char.

(** The object [extractContext] builds. *)
Record Context : Type := {
  timestamp : string;
  scriptName : JsVal;
  url : JsVal;
  method : JsVal;
  logs : string;
  exceptions : string
}.

(** [IGNORE_PATTERNS.some(pattern => pattern.test(context.url))]. *)
Definition ignored (context : Context) : bool :=
  existsb (fun pattern => test pattern (url context)) IGNORE_PATTERNS.

Definition TextEncoder_encode (text : string) : list byte := list_byte_of_string text.

Definition MODEL_ANALYSIS : string := "@cf/deepseek-ai/deepseek-r1-distill-qwen-32b".
Definition MODEL_SUMMARY : string := "@cf/meta/llama-3.3-70b-instruct-fp8-fast".
Definition FALLBACK_SUMMARY : string := "Unable to generate AI analysis".

Definition createAIPrompt (context : Context) : string :=
  "Analyze this error and provide a concise summary explaining what went wrong and potential causes. Also think about what the developer could do to fix this error. Include any relevant context from the logs.

Context:
Script: " +:+ toString (scriptName context) +:+ "
URL: " +:+ toString (url context) +:+ "
Method: " +:+ toString (method context) +:+ "
Time: " +:+ timestamp context +:+ "

Exceptions:
" +:+ exceptions context +:+ "

Logs:
" +:+ logs context.

Definition summaryPromptOf (analysis : JsVal) : string :=
  "Create a clear, concise summary (2-3 sentences max) of this error analysis and the suggested fix. Focus on the key problem and likely cause:

" +:+ toString analysis.

Definition createHeaderBlock (context : Context) : JsVal :=
  JObj [("type", JStr "header");
        ("text", JObj [("type", JStr "plain_text");
                       ("text", JStr ("⚠️ Error in " +:+ toString (scriptName context)));
                       ("emoji", JBool true)])].

Definition createAIAnalysisBlock (aiSummary : JsVal) : JsVal :=
  JObj [("type", JStr "section");
        ("text", JObj [("type", JStr "mrkdwn");
                       ("text", JStr ("*AI Analysis:*" +:+ newline +:+ toString aiSummary))])].

Definition createContextBlock (context : Context) : JsVal :=
  JObj [("type", JStr "section");
        ("fields", JArr [
          JObj [("type", JStr "mrkdwn");
                ("text", JStr ("*URL:*" +:+ newline +:+ toString (or_else (url context) (JStr "N/A"))))];
          JObj [("type", JStr "mrkdwn");
                ("text", JStr ("*Method:*" +:+ newline +:+ toString (or_else (method context) (JStr "N/A"))))];
          JObj [("type", JStr "mrkdwn");
                ("text", JStr ("*Time:*" +:+ newline +:+ timestamp context))]])].

Definition createExceptionBlock (context : Context) : JsVal :=
  JObj [("type", JStr "section");
        ("text", JObj [("type", JStr "mrkdwn");
                       ("text", JStr ("*Exception Details:*" +:+ newline +:+ "```" +:+
                                      exceptions context +:+ "```"))])].

Definition formatSlackMessage (context : Context) (aiSummary : JsVal) : JsVal :=
  JObj [("username", JStr "Error Monitor");
        ("icon_emoji", JStr ":robot_face:");
        ("blocks", JArr [createHeaderBlock context;
                         createAIAnalysisBlock aiSummary;
                         createContextBlock context;
                         createExceptionBlock context])].

Definition formatExceptions (exceptions : JsVal) : Outcome string :=
  match exceptions with
  | JArr items =>
      lines ← mapOutcome (fun ex =>
                 name ← getProp ex "name";
                 message ← getProp ex "message";
                 Returns (toString name +:+ ": " +:+ toString message)) items;
      Returns (join newline lines)
  | _ => Throws TypeError
  end.

(** [JSON.stringify(errorDetails)]: the text that is hashed. *)
Definition errorDetailsText (context : Context) : string :=
  JSON_stringify (JObj [("scriptName", scriptName context);
                        ("exceptions", JStr (exceptions context));
                        ("url", url context);
                        ("method", method context)]).

(** [hashArray.map(b => b.toString(16).padStart(2, '0')).join('')]. *)
Definition hexOf (hashArray : list byte) : string :=
  join "" (map (fun b => padStart0 2 (byteToString16 (Byte.to_N b))) hashArray).

Section WithPlatform.
Context {Σ : Type} (platform : Platform Σ).

(** [new Date(v).toISOString()]. *)
Definition isoOf (v : JsVal) : Outcome string :=
  toISOString (newDate (Date_parse platform) v).

(** [logs.map(...)] needs an array: anything else has no [map] to call. *)
Definition formatLogs (logs : JsVal) : Outcome string :=
  match logs with
  | JArr items =>
      lines ← mapOutcome (fun log =>
                 ts ← getProp log "timestamp";
                 iso ← isoOf ts;
                 level ← getProp log "level";
                 message ← getProp log "message";
                 Returns (iso +:+ " [" +:+ toString level +:+ "] " +:+ toString message)) items;
      Returns (join newline lines)
  | _ => Throws TypeError
  end.

(** The properties are evaluated in the order of the object literal. *)
Definition extractContext (event : JsVal) : Outcome Context :=
  eventTimestamp ← getProp event "eventTimestamp";
  timestamp ← isoOf eventTimestamp;
  scriptName ← getProp event "scriptName";
  inner ← getProp event "event";
  let url := getOpt (getOpt inner "request") "url" in
  let method := getOpt (getOpt inner "request") "method" in
  rawLogs ← getProp event "logs";
  logs ← formatLogs (or_else rawLogs (JArr []));
  rawExceptions ← getProp event "exceptions";
  exceptions ← formatExceptions (or_else rawExceptions (JArr []));
  Returns {| timestamp := timestamp; scriptName := scriptName; url := url;
             method := method; logs := logs; exceptions := exceptions |}.

Definition generateErrorHash (context : Context) : M Σ string :=
  let text := errorDetailsText context in
  let msgBuffer := TextEncoder_encode text in
  hashBuffer ← call (fun σ => (subtle_digest platform "SHA-256" msgBuffer, σ))
                    (Digest "SHA-256" msgBuffer);
  mret (hexOf hashBuffer).

Definition console_log (msg : string) : M Σ unit := emit (ConsoleLog msg).
Definition console_error (label : string) (error : Thrown) : M Σ unit :=
  emit (ConsoleError label error).

Definition checkDuplicateError (errorHash : string) (env : Env Σ) : M Σ bool :=
  try_catch
    (stored ← call (ERROR_DEDUP_KV_get env errorHash) (KvGet errorHash);
     mret (match stored with JNull => false | _ => true end))
    (fun error =>
       console_error "Error checking duplicate:" error;;
       mret false).

Definition storeErrorHash (errorHash : string) (env : Env Σ) : M Σ unit :=
  try_catch
    (call (ERROR_DEDUP_KV_put env errorHash "true" ERROR_WINDOW)
          (KvPut errorHash "true" ERROR_WINDOW))
    (fun error => console_error "Error storing hash:" error).

Definition generateErrorSummary (context : Context) (env : Env Σ) : M Σ JsVal :=
  try_catch
    (let analysisPrompt := createAIPrompt context in
     analysisResponse ← call (AI_run env MODEL_ANALYSIS analysisPrompt)
                             (AiRun MODEL_ANALYSIS analysisPrompt);
     analysis ← lift (getProp analysisResponse "response");
     let summaryPrompt := summaryPromptOf analysis in
     summaryResponse ← call (AI_run env MODEL_SUMMARY summaryPrompt)
                            (AiRun MODEL_SUMMARY summaryPrompt);
     lift (getProp summaryResponse "response"))
    (fun error =>
       console_error "Error generating AI summary:" error;;
       mret (JStr FALLBACK_SUMMARY)).

Definition slackRequest (message : JsVal) : Request :=
  {| rq_method := "POST";
     rq_headers := [("Content-Type", "application/json")];
     rq_body := JSON_stringify message |}.

Definition sendToSlack (message : JsVal) (env : Env Σ) : M Σ unit :=
  try_catch
    (response ← call (fetch platform (SLACK_WEBHOOK_URL env) (slackRequest message))
                     (Fetch (SLACK_WEBHOOK_URL env) (slackRequest message));
     if negb (ok response)
     then throw (Error_ ("Slack API responded with status: " +:+ numToString (status response)))
     else mret tt)
    (fun error => console_error "Error sending to Slack:" error).

(** The body of the loop of [tail], for one event. *)
Definition tailEvent (event : JsVal) (env : Env Σ) : M Σ unit :=
  outcome ← lift (getProp event "outcome");
  if strictEqualsString outcome "exception" then
      context ← lift (extractContext event);
      if ignored context then
        console_log ("Ignoring URL: " +:+ toString (url context))
      else
        errorHash ← generateErrorHash context;
        isDuplicate ← checkDuplicateError errorHash env;
        if negb isDuplicate then
          aiSummary ← generateErrorSummary context env;
          let message := formatSlackMessage context aiSummary in
          sendToSlack message env;;
          storeErrorHash errorHash env
        else
          console_log ("Duplicate error detected, hash: " +:+ errorHash)
  else mret tt.

(** [for (const event of events) { ... }]. *)
Fixpoint tail (events : list JsVal) (env : Env Σ) : M Σ unit :=
  match events with
  | [] => mret tt
  | event :: rest => tailEvent event env;; tail rest env
  end.

End WithPlatform.

End Worker.

Import Worker.

(* ===================================================================== *)
(** ** A concrete outside world *)
(* ===================================================================== *)

Module Mock.

(** The KV namespace is a finite map from keys to a value and its TTL; the
    answers of the AI binding and of the webhook are scripted, one per call,
    with a default once the script is used up. *)
Record World : Type := {
  kv : gmap string (string * Z);
  kv_online : bool;
  ai_script : list (Outcome JsVal);
  slack_script : list (Outcome Response)
}.

Definition unavailable : Thrown := Rejection (JStr "service unavailable").

Definition kv_get (key : string) (w : World) : Outcome JsVal * World :=
  if kv_online w then
    (Returns (match kv w !! key with Some (v, _) => JStr v | None => JNull end), w)
  else (Throws unavailable, w).

Definition kv_put (key value : string) (ttl : Z) (w : World) : Outcome unit * World :=
  if kv_online w then
    (Returns tt, {| kv := <[key := (value, ttl)]> (kv w); kv_online := kv_online w;
                    ai_script := ai_script w; slack_script := slack_script w |})
  else (Throws unavailable, w).

Definition ai_run (model content : string) (w : World) : Outcome JsVal * World :=
  match ai_script w with
  | [] => (Returns (JObj [("response", JStr ("answer of " +:+ model))]), w)
  | r :: rest => (r, {| kv := kv w; kv_online := kv_online w;
                        ai_script := rest; slack_script := slack_script w |})
  end.

Definition post (url : JsVal) (req : Request) (w : World) : Outcome Response * World :=
  match slack_script w with
  | [] => (Returns {| status := 200 |}, w)
  | r :: rest => (r, {| kv := kv w; kv_online := kv_online w;
                        ai_script := ai_script w; slack_script := rest |})
  end.

Definition env : Env World :=
  {| ERROR_DEDUP_KV_get := kv_get;
     ERROR_DEDUP_KV_put := kv_put;
     AI_run := ai_run;
     SLACK_WEBHOOK_URL := JStr "https://hooks.slack.com/services/T000/B000/XXXX" |}.

(** A stand-in for SHA-256 (32-bit FNV-1a): a deterministic function from
    the message to a few bytes, enough to run the worker. *)
Definition fnv1a (data : list byte) : Z :=
  fold_left (fun h b => (Z.lxor h (Z.of_N (Byte.to_N b)) * 16777619) mod 2 ^ 32) data 2166136261.

Definition byteOf (z : Z) : byte := default x00 (Byte.of_N (Z.to_N (z mod 256))).

Definition digest (algorithm : string) (data : list byte) : Outcome (list byte) :=
  let h := fnv1a data in
  Returns [byteOf (h / 2 ^ 24); byteOf (h / 2 ^ 16); byteOf (h / 2 ^ 8); byteOf h].


Definition platform : Platform World :=
  {| Date_parse := fun _ => None; subtle_digest := digest; fetch := post |}.


Definition world0 : World :=
  {| kv := ∅; kv_online := true; ai_script := []; slack_script := [] |}.

(** The event of the end-to-end scenario: a POST to /orders/42 of "api"
    that ended in a TypeError. *)
Definition orderEvent : JsVal :=
  JObj [("outcome", JStr "exception");
        ("scriptName", JStr "api");
        ("eventTimestamp", JNum 1700000000000);
        ("event", JObj [("request", JObj [("url", JStr "/orders/42"); ("method", JStr "POST")])]);
        ("exceptions", JArr [JObj [("name", JStr "TypeError"); ("message", JStr "x is undefined")]]);
        ("logs", JArr [])].


(** The context of [orderEvent] and its fingerprint under [digest]. *)
Definition orderContext : Context :=
  {| timestamp := "2023-11-14T22:13:20.000Z"; scriptName := JStr "api";
     url := JStr "/orders/42"; method := JStr "POST";
     logs := ""; exceptions := "TypeError: x is undefined" |}.

Definition orderHash : string := "4142e8fe".

(** The same error seen a day later with a log line. *)
Definition laterContext : Context :=
  {| timestamp := "2023-11-15T22:13:20.000Z"; scriptName := JStr "api";
     url := JStr "/orders/42"; method := JStr "POST";
     logs := "2023-11-15T22:13:19.000Z [info] retrying";
     exceptions := "TypeError: x is undefined" |}.

(** A request for the favicon that threw. *)
Definition faviconEvent : JsVal :=
  JObj [("outcome", JStr "exception");
        ("scriptName", JStr "api");
        ("eventTimestamp", JNum 1700000000000);
        ("event", JObj [("request", JObj [("url", JStr "favicon.ico"); ("method", JStr "GET")])]);
        ("exceptions", JArr []);
        ("logs", JArr [])].

Definition faviconContext : Context :=
  {| timestamp := "2023-11-14T22:13:20.000Z"; scriptName := JStr "api";
     url := JStr "favicon.ico"; method := JStr "GET"; logs := ""; exceptions := "" |}.

(** An exception outside a request (a scheduled run): no inner event. *)
Definition cronEvent : JsVal :=
  JObj [("outcome", JStr "exception");
        ("scriptName", JStr "cron");
        ("eventTimestamp", JNum 0);
        ("exceptions", JArr [JObj [("name", JStr "Error"); ("message", JStr "boom")]])].

Definition cronContext : Context :=
  {| timestamp := "1970-01-01T00:00:00.000Z"; scriptName := JStr "cron";
     url := JUndefined; method := JUndefined; logs := ""; exceptions := "Error: boom" |}.




(** The store already holds the fingerprint of [orderEvent]. *)
Definition seenWorld : World :=
  {| kv := {[ orderHash := ("true", 3600) ]}; kv_online := true;
     ai_script := []; slack_script := [] |}.


(** The webhook answers 500. *)
Definition slack500World : World :=
  {| kv := ∅; kv_online := true; ai_script := [];
     slack_script := [Returns {| status := 500 |}] |}.

(** The second inference call fails. *)
Definition aiDownWorld : World :=
  {| kv := ∅; kv_online := true;
     ai_script := [Returns (JObj [("response", JStr "analysis")]); Throws unavailable];
     slack_script := [] |}.

(** Every service fails. *)
Definition outageWorld : World :=
  {| kv := ∅; kv_online := false; ai_script := [Throws unavailable];
     slack_script := [Throws unavailable] |}.

End Mock.


(* ===================================================================== *)
(** ** Vocabulary of the properties *)
(* ===================================================================== *)

Module Obs.

(** No "/" anywhere in the string. *)
Fixpoint noSlash (s : string) : bool :=
  match s with
  | EmptyString => true
  | String c rest => negb (Ascii.eqb c "/") && noSlash rest
  end.

(** The strings the three patterns accept. *)
Definition faviconName (s : string) : Prop :=
  exists ext, s = "favicon." +:+ ext /\ ext <> "" /\ noSlash ext = true.

Definition appleName (s : string) : Prop :=
  exists name, s = "apple-" +:+ name +:+ ".png" /\ name <> "" /\ noSlash name = true.

Definition junkName (s : string) : Prop :=
  faviconName s \/ s = "robots.txt" \/ appleName s.


(** The three components of a run. *)
Definition result {Σ A} (run : Outcome A * Σ * list Effect) : Outcome A := run.1.1.
Definition final {Σ A} (run : Outcome A * Σ * list Effect) : Σ := run.1.2.
Definition trace {Σ A} (run : Outcome A * Σ * list Effect) : list Effect := run.2.

Definition isDigest (e : Effect) : bool := match e with Digest _ _ _ => true | _ => false end.
Definition isKvGet (e : Effect) : bool := match e with KvGet _ _ => true | _ => false end.
Definition isKvPut (e : Effect) : bool := match e with KvPut _ _ _ _ => true | _ => false end.
Definition isAiRun (e : Effect) : bool := match e with AiRun _ _ _ => true | _ => false end.
Definition isFetch (e : Effect) : bool := match e with Fetch _ _ _ => true | _ => false end.

Definition noFetch (t : list Effect) : bool := forallb (fun e => negb (isFetch e)) t.
Definition noAiRun (t : list Effect) : bool := forallb (fun e => negb (isAiRun e)) t.

(** Only the console was used. *)
Definition consoleOnly (t : list Effect) : bool :=
  forallb (fun e => match e with ConsoleLog _ | ConsoleError _ _ => true | _ => false end) t.

(** The webhook did not answer with a 2xx status. *)
Definition failedDelivery (res : Outcome Response) : bool :=
  match res with
  | Returns response => negb (ok response)
  | Throws _ => true
  end.

Definition summaryLabel : string := "Error generating AI summary:".
Definition slackLabel : string := "Error sending to Slack:".

(** What [generateErrorHash] returns: the digest of the serialized details,
    in hexadecimal. *)
Definition fingerprintOf {Σ} (platform : Platform Σ) (context : Context) : Outcome string :=
  hashBuffer ← subtle_digest platform "SHA-256" (TextEncoder_encode (errorDetailsText context));
  Returns (hexOf hashBuffer).

Definition digestCall {Σ} (platform : Platform Σ) (context : Context) : Effect :=
  let msgBuffer := TextEncoder_encode (errorDetailsText context) in
  Digest "SHA-256" msgBuffer (subtle_digest platform "SHA-256" msgBuffer).

(** [event] is an exception whose context is [context], is not ignored and
    has the fingerprint [errorHash]: the event reaches the duplicate check. *)
Definition fingerprinted {Σ} (platform : Platform Σ) (event : JsVal)
    (context : Context) (errorHash : string) : Prop :=
  getProp event "outcome" = Returns (JStr "exception") /\
  extractContext platform event = Returns context /\
  ignored context = false /\
  fingerprintOf platform context = Returns errorHash.









(** The loop body from the duplicate check on, once the hash is known. *)
Definition fromDuplicateCheck {Σ} (platform : Platform Σ) (context : Context)
    (errorHash : string) (env : Env Σ) : M Σ unit :=
  isDuplicate ← checkDuplicateError errorHash env;
  if negb isDuplicate then
    aiSummary ← generateErrorSummary context env;
    let message := formatSlackMessage context aiSummary in
    sendToSlack platform message env;;
    storeErrorHash errorHash env
  else
    console_log ("Duplicate error detected, hash: " +:+ errorHash).

(** The steps of the loop body that involve no outside service: reading the
    outcome, extracting the context, matching the url, hashing. *)
Definition localSteps {Σ} (platform : Platform Σ) (event : JsVal) : Outcome unit :=
  outcome ← getProp event "outcome";
  if strictEqualsString outcome "exception" then
    context ← extractContext platform event;
    if ignored context then Returns tt
    else (_ ← fingerprintOf platform context; Returns tt)
  else Returns tt.

End Obs.

Import Obs.

(* ===================================================================== *)
(** ** Vocabulary of the further properties *)
(* ===================================================================== *)

Module Cover.

(** The services of the pipeline, in the order the loop body reaches them. *)
Inductive Stage : Type := SDigest | SGet | SAnalysis | SPost | SPut.


(** The service a call goes to; the console is none. *)
Definition stage (e : Effect) : option Stage :=
  match e with
  | Digest _ _ _ => Some SDigest
  | KvGet _ _ => Some SGet
  | AiRun _ _ _ => Some SAnalysis
  | Fetch _ _ _ => Some SPost
  | KvPut _ _ _ _ => Some SPut
  | ConsoleLog _ | ConsoleError _ _ => None
  end.

(** The services called along a trace, in order. *)
Fixpoint stages (t : list Effect) : list Stage :=
  match t with
  | [] => []
  | e :: rest =>
      match stage e with
      | Some s => s :: stages rest
      | None => stages rest
      end
  end.


(** The loop body does nothing for the event: its outcome can be read and
    is not "exception". *)
Definition skipped (event : JsVal) : bool :=
  match getProp event "outcome" with
  | Returns v => negb (strictEqualsString v "exception")
  | Throws _ => false
  end.

(** A completed request and a scheduled run that ended well. *)
Definition okEvent : JsVal :=
  JObj [("outcome", JStr "ok"); ("scriptName", JStr "api");
        ("eventTimestamp", JNum 1700000000000)].

Definition cpuEvent : JsVal :=
  JObj [("outcome", JStr "exceededCpu"); ("scriptName", JStr "api");
        ("eventTimestamp", JNum 1700000000001)].

(** Worlds with the same KV namespace. *)
Definition sameStore (w w' : Mock.World) : Prop :=
  Mock.kv w' = Mock.kv w /\ Mock.kv_online w' = Mock.kv_online w.

(** A digit of [b.toString(16)]. *)
Definition isLowerHex (c : ascii) : bool :=
  let n := N_of_ascii c in
  ((48 <=? n) && (n <=? 57) || (97 <=? n) && (n <=? 102))%N.

Definition hexValue (c : ascii) : option N :=
  let n := N_of_ascii c in
  if ((48 <=? n) && (n <=? 57))%N then Some (n - 48)%N
  else if ((97 <=? n) && (n <=? 102))%N then Some (n - 87)%N
  else None.

(** Reading a fingerprint back: two digits a byte. *)
Fixpoint unhex (s : string) : option (list byte) :=
  match s with
  | EmptyString => Some []
  | String _ EmptyString => None
  | String c1 (String c2 rest) =>
      hi ← hexValue c1;
      lo ← hexValue c2;
      b ← Byte.of_N (hi * 16 + lo);
      bs ← unhex rest;
      Some (b :: bs)
  end.

(** The character a two-character escape of JSON stands for. *)
Definition unescapeSimple (e : ascii) : option ascii :=
  let n := N_of_ascii e in
  if (n =? 34)%N then Some dquote
  else if (n =? 92)%N then Some "\"%char
  else if (n =? 98)%N then Some "008"%char
  else if (n =? 116)%N then Some "009"%char
  else if (n =? 110)%N then Some "010"%char
  else if (n =? 102)%N then Some "012"%char
  else if (n =? 114)%N then Some "013"%char
  else None.

(** Reading a JSON string after its opening quote: the content, unescaped,
    and what follows the closing quote. *)
Fixpoint readEscaped (s : string) : option (string * string) :=
  match s with
  | EmptyString => None
  | String c rest =>
      if Ascii.eqb c dquote then Some ("", rest)
      else if Ascii.eqb c "\" then
        match rest with
        | EmptyString => None
        | String e rest1 =>
            if Ascii.eqb e "u" then
              match rest1 with
              | String z1 (String z2 (String h (String l rest2))) =>
                  if Ascii.eqb z1 "0" && Ascii.eqb z2 "0" then
                    hi ← hexValue h;
                    lo ← hexValue l;
                    r ← readEscaped rest2;
                    Some (String (ascii_of_N (hi * 16 + lo)) r.1, r.2)
                  else None
              | _ => None
              end
            else
              ch ← unescapeSimple e;
              r ← readEscaped rest1;
              Some (String ch r.1, r.2)
        end
      else
        r ← readEscaped rest;
        Some (String c r.1, r.2)
  end.

Definition readQuoted (s : string) : option (string * string) :=
  match s with
  | EmptyString => None
  | String c rest => if Ascii.eqb c dquote then readEscaped rest else None
  end.

Definition expectChar (c : ascii) (s : string) : option string :=
  match s with
  | EmptyString => None
  | String c' rest => if Ascii.eqb c' c then Some rest else None
  end.

(** Reading the members of an object whose values are strings, up to the
    closing brace that ends the text. *)
Fixpoint readMembers (fuel : nat) (s : string) : option (list (string * string)) :=
  match fuel with
  | O => None
  | S fuel' =>
      key ← readQuoted s;
      s1 ← expectChar ":" key.2;
      value ← readQuoted s1;
      match value.2 with
      | EmptyString => None
      | String c rest =>
          if Ascii.eqb c "}" then
            (if String.eqb rest "" then Some [(key.1, value.1)] else None)
          else if Ascii.eqb c "," then
            members ← readMembers fuel' rest;
            Some ((key.1, value.1) :: members)
          else None
      end
  end.

(** Reading back the text [generateErrorHash] hashes. *)
Definition readDetails (text : string) : option (list (string * string)) :=
  s ← expectChar "{" text;
  readMembers 4 s.

(** A string or nothing: what [scriptName], [url] and [method] are for the
    events of the runtime. *)
Definition stringOrAbsent (v : JsVal) : bool :=
  match v with
  | JStr _ | JUndefined => true
  | _ => false
  end.

(** The members [JSON.stringify] writes for the details of a context: a
    property whose value is undefined is left out. *)
Definition memberOf (key : string) (v : JsVal) : list (string * string) :=
  match v with
  | JStr s => [(key, s)]
  | _ => []
  end.

Definition detailMembers (context : Context) : list (string * string) :=
  memberOf "scriptName" (scriptName context) ++
  [("exceptions", exceptions context)] ++
  memberOf "url" (url context) ++
  memberOf "method" (method context).

(** The error of [Mock.orderEvent] a day later, with a log line. *)
Definition laterEvent : JsVal :=
  JObj [("outcome", JStr "exception");
        ("scriptName", JStr "api");
        ("eventTimestamp", JNum 1700086400000);
        ("event", JObj [("request", JObj [("url", JStr "/orders/42"); ("method", JStr "POST")])]);
        ("exceptions", JArr [JObj [("name", JStr "TypeError"); ("message", JStr "x is undefined")]]);
        ("logs", JArr [JObj [("timestamp", JNum 1700086399000); ("level", JStr "info");
                             ("message", JStr "retrying")]])].

(** The first model answers null. *)
Definition nullAnswerWorld : Mock.World :=
  {| Mock.kv := ∅; Mock.kv_online := true;
     Mock.ai_script := [Returns JNull]; Mock.slack_script := [] |}.


(** A run without a time: [eventTimestamp] is null. *)
Definition untimedEvent : JsVal :=
  JObj [("outcome", JStr "exception");
        ("scriptName", JStr "cron");
        ("eventTimestamp", JNull);
        ("exceptions", JArr [JObj [("name", JStr "Error"); ("message", JStr "boom")]])].


End Cover.

Import Cover.
(* ===================================================================== *)
(** ** The ignore patterns *)
(* ===================================================================== *)

Module RegexFacts.

Lemma searchFrom_Bol r s : searchFrom (Bol :: r) false s = false.
Proof. induction s as [|c s IH]; simpl; auto. Qed.

Lemma test_anchored r v : test (Bol :: r) v = matchHere r true (toString v).
Proof.
  unfold test. destruct (toString v) as [|c s]; simpl.
  - now rewrite orb_false_r.
  - now rewrite searchFrom_Bol, orb_false_r.
Qed.

Lemma matchHere_lits w r b s :
  matchHere (lits w ++ r) b s = true <->
  exists s', s = w +:+ s' /\ matchHere r (b && String.eqb w "") s' = true.
Proof.
  revert b s. induction w as [|c w IH]; intros b s.
  - simpl. rewrite andb_true_r. split; [intros H; exists s; auto | intros (s' & -> & H); auto].
  - change (lits (String c w) ++ r) with (One (Lit c) :: (lits w ++ r)).
    simpl. rewrite andb_false_r. destruct s as [|a rest].
    + split; [discriminate | intros (s' & E & _); discriminate].
    + rewrite andb_true_iff, IH. simpl. rewrite Ascii.eqb_eq. split.
      * intros (-> & s' & -> & H). exists s'. auto.
      * intros (s' & E & H). injection E as -> ->. split; eauto.
Qed.

Lemma plusLoop_spec cc k s :
  plusLoop cc k s = true <->
  exists run rest, s = run +:+ rest /\ run <> "" /\
                   forallb (accepts cc) (list_ascii_of_string run) = true /\ k rest = true.
Proof.
  induction s as [|c s IH]; simpl.
  - split; [discriminate|]. intros (run & rest & E & Hne & _).
    destruct run; [congruence | discriminate].
  - rewrite andb_true_iff, orb_true_iff, IH. split.
    + intros (Hc & [(run & rest & -> & Hne & Hall & Hk) | Hk]).
      * exists (String c run), rest. simpl. rewrite Hc, Hall. auto.
      * exists (String c ""), s. simpl. rewrite Hc. auto.
    + intros (run & rest & E & Hne & Hall & Hk).
      destruct run as [|a run]; [congruence|]. simpl in E, Hall.
      injection E as -> ->. apply andb_true_iff in Hall as [Ha Hall]. split; [auto|].
      destruct run as [|a' run'].
      * right. exact Hk.
      * left. exists (String a' run'), rest. auto.
Qed.

Lemma append_cons c s t : String c s +:+ t = String c (s +:+ t).
Proof. reflexivity. Qed.

Lemma append_empty_r s : s +:+ "" = s.
Proof. induction s as [|c s IH]; [reflexivity|]. now rewrite append_cons, IH. Qed.

Lemma forallb_notSlash s :
  forallb (accepts (NotChar "/")) (list_ascii_of_string s) = noSlash s.
Proof.
  induction s as [|c s IH]; [reflexivity|].
  cbn [list_ascii_of_string forallb noSlash accepts]. now rewrite IH.
Qed.


Lemma matchHere_Eol b s : matchHere [Eol] b s = true <-> s = "".
Proof. simpl. rewrite andb_true_r. apply String.eqb_eq. Qed.

Lemma slashFree_run_Eol s :
  plusLoop (NotChar "/") (matchHere [Eol] false) s = true <-> s <> "" /\ noSlash s = true.
Proof.
  rewrite plusLoop_spec. split.
  - intros (run & rest & -> & Hne & Hall & Hk). apply matchHere_Eol in Hk as ->.
    rewrite append_empty_r, <- forallb_notSlash. auto.
  - intros [Hne Hs]. exists s, "". rewrite append_empty_r, forallb_notSlash.
    repeat split; auto.
Qed.

Lemma favicon_pattern v :
  test (Bol :: lits "favicon." ++ [Plus (NotChar "/"); Eol]) v = true <-> faviconName (toString v).
Proof.
  rewrite test_anchored, matchHere_lits. unfold faviconName. simpl (true && _).
  split; intros (ext & E & H); exists ext; (split; [exact E|]).
  - now apply slashFree_run_Eol.
  - now apply slashFree_run_Eol in H.
Qed.

Lemma robots_pattern v :
  test (Bol :: lits "robots.txt" ++ [Eol]) v = true <-> toString v = "robots.txt".
Proof.
  rewrite test_anchored, matchHere_lits. split.
  - intros (s' & E & H). apply matchHere_Eol in H as ->. exact E.
  - intros E. exists "". split; [exact E | reflexivity].
Qed.

Lemma apple_pattern v :
  test (Bol :: lits "apple-" ++ Plus (NotChar "/") :: lits ".png" ++ [Eol]) v = true <->
  appleName (toString v).
Proof.
  rewrite test_anchored, matchHere_lits. unfold appleName. simpl (true && _). split.
  - intros (s' & E & H). simpl in H. apply plusLoop_spec in H.
    destruct H as (run & rest & -> & Hne & Hall & Hk).
    apply (matchHere_lits ".png" [Eol] false rest) in Hk.
    destruct Hk as (tl & -> & Hk). apply matchHere_Eol in Hk as ->.
    exists run. rewrite <- forallb_notSlash. auto.
  - intros (name & E & Hne & Hs). exists (name +:+ ".png"). split; [exact E|].
    simpl. apply plusLoop_spec. exists name, ".png".
    rewrite forallb_notSlash. repeat split; auto.
Qed.

Lemma ignored_spec context : ignored context = true <-> junkName (toString (url context)).
Proof.
  unfold ignored, IGNORE_PATTERNS, junkName. cbn [existsb].
  rewrite orb_false_r, !orb_true_iff.
  rewrite <- favicon_pattern, <- robots_pattern, <- apple_pattern. reflexivity.
Qed.


End RegexFacts.

Import RegexFacts.

(* ===================================================================== *)
(** ** Runs of the worker's functions *)
(* ===================================================================== *)

Module Runs.

(** A membership that a kind test over the whole list rules out. *)
Ltac not_in_by Hin Hall :=
  let Habs := fresh "Habs" in
  pose proof (proj1 (forallb_forall _ _) Hall _ Hin) as Habs; discriminate Habs.

Section Runs.
Context {Σ : Type} (platform : Platform Σ) (env : Env Σ).

Lemma mbind_run {A B} (m : M Σ A) (f : A -> M Σ B) σ :
  (m ≫= f) σ =
  match m σ with
  | (Returns a, σ1, t1) => let '(r, σ2, t2) := f a σ1 in (r, σ2, t1 ++ t2)
  | (Throws e, σ1, t1) => (Throws e, σ1, t1)
  end.
Proof. reflexivity. Qed.

Lemma lift_run {A} (o : Outcome A) (σ : Σ) : lift o σ = (o, σ, []).
Proof. reflexivity. Qed.

Lemma generateErrorHash_run context σ :
  generateErrorHash platform context σ =
  (fingerprintOf platform context, σ, [digestCall platform context]).
Proof.
  unfold generateErrorHash, fingerprintOf, digestCall. rewrite mbind_run. unfold call.
  destruct (subtle_digest platform _ _); reflexivity.
Qed.

Lemma checkDuplicateError_run errorHash σ :
  checkDuplicateError errorHash env σ =
  match ERROR_DEDUP_KV_get env errorHash σ with
  | (Returns stored, σ1) =>
      (Returns (match stored with JNull => false | _ => true end), σ1,
       [KvGet errorHash (Returns stored)])
  | (Throws e, σ1) =>
      (Returns false, σ1,
       [KvGet errorHash (Throws e); ConsoleError "Error checking duplicate:" e])
  end.
Proof.
  unfold checkDuplicateError, try_catch. rewrite mbind_run. unfold call.
  destruct (ERROR_DEDUP_KV_get env errorHash σ) as [[stored|e] σ1]; reflexivity.
Qed.

Lemma storeErrorHash_run errorHash σ :
  storeErrorHash errorHash env σ =
  match ERROR_DEDUP_KV_put env errorHash "true" 3600 σ with
  | (Returns _, σ1) => (Returns tt, σ1, [KvPut errorHash "true" 3600 (Returns tt)])
  | (Throws e, σ1) =>
      (Returns tt, σ1,
       [KvPut errorHash "true" 3600 (Throws e); ConsoleError "Error storing hash:" e])
  end.
Proof.
  unfold storeErrorHash, try_catch, call. change ERROR_WINDOW with 3600.
  destruct (ERROR_DEDUP_KV_put env errorHash "true" 3600 σ) as [[[]|e] σ1]; reflexivity.
Qed.

Lemma sendToSlack_run message σ :
  sendToSlack platform message env σ =
  let url := SLACK_WEBHOOK_URL env in
  let req := slackRequest message in
  match fetch platform url req σ with
  | (Returns response, σ1) =>
      (Returns tt, σ1,
       Fetch url req (Returns response) ::
       if ok response then []
       else [ConsoleError "Error sending to Slack:"
               (Error_ ("Slack API responded with status: " +:+ numToString (status response)))])
  | (Throws e, σ1) =>
      (Returns tt, σ1, [Fetch url req (Throws e); ConsoleError "Error sending to Slack:" e])
  end.
Proof.
  unfold sendToSlack, try_catch. rewrite mbind_run. unfold call. cbv zeta.
  destruct (fetch platform _ _ σ) as [[response|e] σ1]; [|reflexivity].
  destruct (ok response); reflexivity.
Qed.

Lemma generateErrorSummary_run context σ :
  generateErrorSummary context env σ =
  let p1 := createAIPrompt context in
  let fallback := Returns (JStr FALLBACK_SUMMARY) in
  match AI_run env MODEL_ANALYSIS p1 σ with
  | (Throws e, σ1) =>
      (fallback, σ1, [AiRun MODEL_ANALYSIS p1 (Throws e); ConsoleError summaryLabel e])
  | (Returns a, σ1) =>
      let first := AiRun MODEL_ANALYSIS p1 (Returns a) in
      match getProp a "response" with
      | Throws e => (fallback, σ1, [first; ConsoleError summaryLabel e])
      | Returns analysis =>
          let p2 := summaryPromptOf analysis in
          match AI_run env MODEL_SUMMARY p2 σ1 with
          | (Throws e, σ2) =>
              (fallback, σ2, [first; AiRun MODEL_SUMMARY p2 (Throws e); ConsoleError summaryLabel e])
          | (Returns s, σ2) =>
              let second := AiRun MODEL_SUMMARY p2 (Returns s) in
              match getProp s "response" with
              | Throws e => (fallback, σ2, [first; second; ConsoleError summaryLabel e])
              | Returns summary => (Returns summary, σ2, [first; second])
              end
          end
      end
  end.
Proof.
  unfold generateErrorSummary, try_catch. cbv zeta. rewrite mbind_run. unfold call.
  destruct (AI_run env MODEL_ANALYSIS _ σ) as [[a|e] σ1]; [|reflexivity].
  rewrite mbind_run, lift_run.
  destruct (getProp a "response") as [analysis|e]; [|reflexivity].
  rewrite mbind_run.
  destruct (AI_run env MODEL_SUMMARY _ σ1) as [[s|e] σ2]; [|reflexivity].
  rewrite lift_run.
  destruct (getProp s "response") as [summary|e]; reflexivity.
Qed.


(** *** What each function guarantees, whatever the services answer *)

Lemma checkDuplicateError_spec errorHash σ :
  exists isDuplicate σ1 r rest,
    checkDuplicateError errorHash env σ = (Returns isDuplicate, σ1, KvGet errorHash r :: rest) /\
    ERROR_DEDUP_KV_get env errorHash σ = (r, σ1) /\
    consoleOnly rest = true.
Proof.
  rewrite checkDuplicateError_run.
  destruct (ERROR_DEDUP_KV_get env errorHash σ) as [[stored|e] σ1]; eauto 10.
Qed.

Lemma storeErrorHash_spec errorHash σ :
  exists σ1 r rest,
    storeErrorHash errorHash env σ = (Returns tt, σ1, KvPut errorHash "true" 3600 r :: rest) /\
    consoleOnly rest = true.
Proof.
  rewrite storeErrorHash_run.
  destruct (ERROR_DEDUP_KV_put env errorHash "true" 3600 σ) as [[[]|e] σ1]; eauto 10.
Qed.

Lemma sendToSlack_spec message σ :
  exists σ1 r rest,
    sendToSlack platform message env σ =
      (Returns tt, σ1, Fetch (SLACK_WEBHOOK_URL env) (slackRequest message) r :: rest) /\
    (failedDelivery r = true -> exists e, rest = [ConsoleError slackLabel e]) /\
    (failedDelivery r = false -> rest = []).
Proof.
  rewrite sendToSlack_run. cbv zeta.
  destruct (fetch platform _ _ σ) as [[response|e] σ1].
  - exists σ1, (Returns response). unfold failedDelivery.
    destruct (ok response); cbn [negb]; eexists; (split; [reflexivity|]); split;
      solve [discriminate | eauto].
  - exists σ1, (Throws e). cbn [failedDelivery].
    eexists. split; [reflexivity|]. split; [eauto | discriminate].
Qed.

Lemma generateErrorSummary_spec context σ :
  exists summary σ1 r rest,
    generateErrorSummary context env σ =
      (Returns summary, σ1, AiRun MODEL_ANALYSIS (createAIPrompt context) r :: rest) /\
    noFetch rest = true /\
    (forall m c e, In (AiRun m c (Throws e)) (AiRun MODEL_ANALYSIS (createAIPrompt context) r :: rest) ->
                   summary = JStr FALLBACK_SUMMARY).
Proof.
  rewrite generateErrorSummary_run. cbv zeta.
  destruct (AI_run env MODEL_ANALYSIS _ σ) as [[a|e] σ1]; [|eauto 10].
  destruct (getProp a "response") as [analysis|e]; [|eauto 10].
  destruct (AI_run env MODEL_SUMMARY _ σ1) as [[s|e] σ2]; [|eauto 10].
  destruct (getProp s "response") as [summary|e]; [|eauto 10].
  do 4 eexists. split; [reflexivity|]. split; [reflexivity|].
  intros m c e [H|[H|[]]]; discriminate.
Qed.

(** *** The loop body, path by path *)

Lemma strictEqualsString_true v s : strictEqualsString v s = true <-> v = JStr s.
Proof.
  destruct v; simpl; try (split; [discriminate | intros H; discriminate]).
  rewrite String.eqb_eq. split; congruence.
Qed.

Lemma tailEvent_outcome_throws event e σ :
  getProp event "outcome" = Throws e ->
  tailEvent platform event env σ = (Throws e, σ, []).
Proof. intros H. unfold tailEvent. now rewrite mbind_run, lift_run, H. Qed.

Lemma tailEvent_other_outcome event v σ :
  getProp event "outcome" = Returns v -> v <> JStr "exception" ->
  tailEvent platform event env σ = (Returns tt, σ, []).
Proof.
  intros H Hv. unfold tailEvent. rewrite mbind_run, lift_run, H.
  destruct (strictEqualsString v "exception") eqn:E; [|reflexivity].
  apply strictEqualsString_true in E. contradiction.
Qed.

Lemma tailEvent_extract_throws event e σ :
  getProp event "outcome" = Returns (JStr "exception") ->
  extractContext platform event = Throws e ->
  tailEvent platform event env σ = (Throws e, σ, []).
Proof.
  intros H He. unfold tailEvent. rewrite mbind_run, lift_run, H.
  cbn [strictEqualsString String.eqb Ascii.eqb Bool.eqb]. cbv iota.
  now rewrite mbind_run, lift_run, He.
Qed.

Lemma tailEvent_ignored event context σ :
  getProp event "outcome" = Returns (JStr "exception") ->
  extractContext platform event = Returns context ->
  ignored context = true ->
  tailEvent platform event env σ =
    (Returns tt, σ, [ConsoleLog ("Ignoring URL: " +:+ toString (url context))]).
Proof.
  intros H He Hi. unfold tailEvent. rewrite mbind_run, lift_run, H.
  cbn [strictEqualsString String.eqb Ascii.eqb Bool.eqb]. cbv iota.
  now rewrite mbind_run, lift_run, He, Hi.
Qed.

(** From the hash on, for an event that is not ignored. *)
Lemma tailEvent_hashed event context σ :
  getProp event "outcome" = Returns (JStr "exception") ->
  extractContext platform event = Returns context ->
  ignored context = false ->
  tailEvent platform event env σ =
    match fingerprintOf platform context with
    | Throws e => (Throws e, σ, [digestCall platform context])
    | Returns errorHash =>
        let '(r, σ1, t) := fromDuplicateCheck platform context errorHash env σ in
        (r, σ1, digestCall platform context :: t)
    end.
Proof.
  intros H He Hi. unfold tailEvent. rewrite mbind_run, lift_run, H.
  cbn [strictEqualsString String.eqb Ascii.eqb Bool.eqb]. cbv iota.
  rewrite mbind_run, lift_run, He, Hi.
  rewrite mbind_run, generateErrorHash_run.
  destruct (fingerprintOf platform context) as [errorHash|e]; [|reflexivity].
  match goal with
  | |- context [(checkDuplicateError errorHash env ≫= ?f) σ] =>
      change ((checkDuplicateError errorHash env ≫= f) σ)
        with (fromDuplicateCheck platform context errorHash env σ)
  end.
  destruct (fromDuplicateCheck platform context errorHash env σ) as [[r σ1] t].
  reflexivity.
Qed.

Lemma tailEvent_digest_throws event context e σ :
  getProp event "outcome" = Returns (JStr "exception") ->
  extractContext platform event = Returns context ->
  ignored context = false ->
  fingerprintOf platform context = Throws e ->
  tailEvent platform event env σ = (Throws e, σ, [digestCall platform context]).
Proof. intros H He Hi Hd. rewrite (tailEvent_hashed _ _ _ H He Hi), Hd. reflexivity. Qed.

Lemma tailEvent_duplicate event context errorHash σ σ1 t1 :
  fingerprinted platform event context errorHash ->
  checkDuplicateError errorHash env σ = (Returns true, σ1, t1) ->
  tailEvent platform event env σ =
    (Returns tt, σ1,
     digestCall platform context :: t1 ++
     [ConsoleLog ("Duplicate error detected, hash: " +:+ errorHash)]).
Proof.
  intros (H & He & Hi & Hd) Hc. rewrite (tailEvent_hashed _ _ _ H He Hi), Hd.
  unfold fromDuplicateCheck. rewrite mbind_run, Hc. reflexivity.
Qed.

Lemma tailEvent_fresh event context errorHash σ σ1 t1 :
  fingerprinted platform event context errorHash ->
  checkDuplicateError errorHash env σ = (Returns false, σ1, t1) ->
  exists summary σ2 t2 σ3 t3 σ4 t4,
    generateErrorSummary context env σ1 = (Returns summary, σ2, t2) /\
    sendToSlack platform (formatSlackMessage context summary) env σ2 = (Returns tt, σ3, t3) /\
    storeErrorHash errorHash env σ3 = (Returns tt, σ4, t4) /\
    tailEvent platform event env σ =
      (Returns tt, σ4, digestCall platform context :: t1 ++ t2 ++ t3 ++ t4).
Proof.
  intros (H & He & Hi & Hd) Hc.
  destruct (generateErrorSummary_spec context σ1) as (summary & σ2 & r2 & rest2 & Hs & _).
  destruct (sendToSlack_spec (formatSlackMessage context summary) σ2)
    as (σ3 & r3 & rest3 & Hp & _).
  destruct (storeErrorHash_spec errorHash σ3) as (σ4 & r4 & rest4 & Hst & _).
  do 7 eexists. split; [exact Hs|]. split; [exact Hp|]. split; [exact Hst|].
  rewrite (tailEvent_hashed _ _ _ H He Hi), Hd.
  unfold fromDuplicateCheck. rewrite mbind_run, Hc. cbn [negb]. cbv iota.
  rewrite mbind_run, Hs, mbind_run, Hp, Hst. reflexivity.
Qed.


(** *** The loop *)

Lemma tail_cons event rest σ :
  tail platform (event :: rest) env σ =
  match tailEvent platform event env σ with
  | (Returns _, σ1, t1) =>
      let '(r, σ2, t2) := tail platform rest env σ1 in (r, σ2, t1 ++ t2)
  | (Throws e, σ1, t1) => (Throws e, σ1, t1)
  end.
Proof. reflexivity. Qed.

Lemma consoleOnly_noFetch t : consoleOnly t = true -> noFetch t = true.
Proof.
  unfold consoleOnly, noFetch. rewrite !forallb_forall. intros H x Hx.
  specialize (H x Hx). destruct x; try discriminate; reflexivity.
Qed.

End Runs.

End Runs.

Import Runs.

(* ===================================================================== *)
(** ** Context extraction *)
(* ===================================================================== *)

Module Extraction.

Section Extraction.
Context {Σ : Type} (platform : Platform Σ).


Lemma getProp_getOpt v k : nullish v = false -> getProp v k = Returns (getOpt v k).
Proof. destruct v; simpl; congruence. Qed.

Lemma getProp_nullish v k : nullish v = true -> returned (getProp v k) = false.
Proof. destruct v; simpl; congruence. Qed.










(** The fields of the context of a well-formed event. *)
Lemma extractContext_fields event context :
  extractContext platform event = Returns context ->
  isoOf platform (getOpt event "eventTimestamp") = Returns (timestamp context) /\
  scriptName context = getOpt event "scriptName" /\
  url context = getOpt (getOpt (getOpt event "event") "request") "url" /\
  method context = getOpt (getOpt (getOpt event "event") "request") "method" /\
  formatLogs platform (or_else (getOpt event "logs") (JArr [])) = Returns (logs context) /\
  formatExceptions (or_else (getOpt event "exceptions") (JArr [])) =
    Returns (exceptions context).
Proof.
  unfold extractContext. destruct (nullish event) eqn:Hn.
  - destruct event; discriminate.
  - rewrite !(getProp_getOpt _ _ Hn). cbn [mbind Outcome_bind obind].
    destruct (isoOf platform (getOpt event "eventTimestamp")); [|discriminate].
    destruct (formatLogs platform _); [|discriminate].
    destruct (formatExceptions _); [|discriminate].
    intros H. injection H as <-. repeat split.
Qed.

End Extraction.

End Extraction.

Import Extraction.

(* ===================================================================== *)
(** ** Properties of the worker *)
(* ===================================================================== *)

(** Closed facts about [Mock] are settled by evaluation. *)
Ltac by_evaluation := vm_compute; reflexivity.

(** *** Fingerprints *)

(** C1. Two contexts with the same scriptName, exceptions, url and method
    give the same hashed text and the same run of [generateErrorHash] (same
    digest call, same hexadecimal fingerprint), whatever their timestamp and
    logs are. *)
Theorem fingerprint_ignores_timestamp_and_logs
    {Σ : Type} (platform : Platform Σ) (c1 c2 : Context) (σ : Σ) :
  scriptName c1 = scriptName c2 ->
  exceptions c1 = exceptions c2 ->
  url c1 = url c2 ->
  method c1 = method c2 ->
  errorDetailsText c1 = errorDetailsText c2 /\
  generateErrorHash platform c1 σ = generateErrorHash platform c2 σ.
Proof.
  intros Hs He Hu Hm.
  assert (Ht : errorDetailsText c1 = errorDetailsText c2).
  { unfold errorDetailsText. now rewrite Hs, He, Hu, Hm. }
  split; [exact Ht|].
  rewrite !generateErrorHash_run. unfold fingerprintOf, digestCall. now rewrite Ht.
Qed.

Lemma fingerprint_ignores_timestamp_and_logs_witness :
  timestamp Mock.orderContext <> timestamp Mock.laterContext /\
  logs Mock.orderContext <> logs Mock.laterContext /\
  generateErrorHash Mock.platform Mock.orderContext Mock.world0 =
  generateErrorHash Mock.platform Mock.laterContext Mock.world0.
Proof.
  split; [discriminate|]. split; [discriminate|].
  apply (fingerprint_ignores_timestamp_and_logs Mock.platform
           Mock.orderContext Mock.laterContext Mock.world0); reflexivity.
Defined.

(** *** Duplicates *)

(** C2. When the store already holds the fingerprint of an event (the
    lookup answers something other than null), [checkDuplicateError] returns
    true and the event costs one digest, one lookup and one line of log: no
    call to the AI binding, no fetch, no put; the loop goes on with the next
    event. *)
Theorem duplicate_event_is_only_logged
    {Σ : Type} (platform : Platform Σ) (env : Env Σ) (event : JsVal)
    (context : Context) (errorHash : string) (stored : JsVal) (σ σ1 : Σ) :
  fingerprinted platform event context errorHash ->
  ERROR_DEDUP_KV_get env errorHash σ = (Returns stored, σ1) ->
  stored <> JNull ->
  result (checkDuplicateError errorHash env σ) = Returns true /\
  tailEvent platform event env σ =
    (Returns tt, σ1,
     [digestCall platform context;
      KvGet errorHash (Returns stored);
      ConsoleLog ("Duplicate error detected, hash: " +:+ errorHash)]) /\
  noAiRun (trace (tailEvent platform event env σ)) = true /\
  noFetch (trace (tailEvent platform event env σ)) = true /\
  forall rest,
    tail platform (event :: rest) env σ =
    let '(r, σ2, t2) := tail platform rest env σ1 in
    (r, σ2, [digestCall platform context;
             KvGet errorHash (Returns stored);
             ConsoleLog ("Duplicate error detected, hash: " +:+ errorHash)] ++ t2).
Proof.
  intros Hf Hget Hstored.
  assert (Hc : checkDuplicateError errorHash env σ =
               (Returns true, σ1, [KvGet errorHash (Returns stored)])).
  { rewrite checkDuplicateError_run, Hget. destruct stored; congruence. }
  pose proof (tailEvent_duplicate platform env _ _ _ _ _ _ Hf Hc) as Ht.
  cbn [app] in Ht.
  split; [now rewrite Hc|]. split; [exact Ht|].
  split; [now rewrite Ht|]. split; [now rewrite Ht|].
  intros rest. now rewrite tail_cons, Ht.
Qed.

Lemma duplicate_event_is_only_logged_witness :
  fingerprinted Mock.platform Mock.orderEvent Mock.orderContext Mock.orderHash /\
  Mock.kv_get Mock.orderHash Mock.seenWorld = (Returns (JStr "true"), Mock.seenWorld) /\
  consoleOnly (skipn 2 (trace (tailEvent Mock.platform Mock.orderEvent Mock.env Mock.seenWorld)))
    = true.
Proof.
  assert (Hf : fingerprinted Mock.platform Mock.orderEvent Mock.orderContext Mock.orderHash).
  { repeat split; by_evaluation. }
  assert (Hget : Mock.kv_get Mock.orderHash Mock.seenWorld =
                 (Returns (JStr "true"), Mock.seenWorld)).
  { by_evaluation. }
  split; [exact Hf|]. split; [exact Hget|].
  destruct (duplicate_event_is_only_logged Mock.platform Mock.env Mock.orderEvent
              Mock.orderContext Mock.orderHash (JStr "true") Mock.seenWorld Mock.seenWorld
              Hf Hget) as (_ & Ht & _); [discriminate|].
  rewrite Ht. reflexivity.
Defined.



(** *** Delivery *)

(** C4. For an event that reaches the duplicate check, if the trace of its
    processing contains a fetch that threw or was answered with a status
    outside 200..299, then nothing is thrown to the loop, the failure is
    logged by [sendToSlack] right after the fetch, and the put of the
    fingerprint with a TTL of 3600 seconds comes next all the same. *)
Theorem failed_delivery_is_logged_and_hash_stored
    {Σ : Type} (platform : Platform Σ) (env : Env Σ) (event : JsVal)
    (context : Context) (errorHash : string) (σ σ' : Σ)
    (res : Outcome unit) (t : list Effect)
    (u : JsVal) (req : Request) (answer : Outcome Response) :
  fingerprinted platform event context errorHash ->
  tailEvent platform event env σ = (res, σ', t) ->
  In (Fetch u req answer) t ->
  failedDelivery answer = true ->
  res = Returns tt /\
  ERROR_WINDOW = 3600 /\
  exists before error stored rest,
    t = before ++
        [Fetch u req answer;
         ConsoleError "Error sending to Slack:" error;
         KvPut errorHash "true" ERROR_WINDOW stored] ++ rest /\
    noFetch before = true /\ consoleOnly rest = true.
Proof.
  intros Hf Hrun Hin Hfail.
  destruct (checkDuplicateError_spec env errorHash σ)
    as (isDuplicate & σ1 & r0 & rest0 & Hc & _ & Hrest0).
  apply consoleOnly_noFetch in Hrest0.
  destruct isDuplicate.
  - (* a duplicate makes no fetch at all *)
    rewrite (tailEvent_duplicate platform env _ _ _ _ _ _ Hf Hc) in Hrun.
    injection Hrun as _ _ <-. exfalso.
    assert (Hno : noFetch (digestCall platform context :: (KvGet errorHash r0 :: rest0) ++
                           [ConsoleLog ("Duplicate error detected, hash: " +:+ errorHash)]) = true).
    { unfold noFetch in *. cbn [forallb app isFetch negb digestCall andb].
      rewrite forallb_app, Hrest0. reflexivity. }
    not_in_by Hin Hno.
  - destruct (tailEvent_fresh platform env _ _ _ _ _ _ Hf Hc)
      as (summary & σ2 & t2 & σ3 & t3 & σ4 & t4 & Hs & Hp & Hst & Ht).
    destruct (generateErrorSummary_spec env context σ1)
      as (s' & σ2' & r1 & rest1 & Hs' & Hrest1 & _).
    destruct (sendToSlack_spec platform env (formatSlackMessage context summary) σ2)
      as (σ3' & r2 & rest2 & Hp' & Hbad & Hgood).
    destruct (storeErrorHash_spec env errorHash σ3) as (σ4' & r3 & rest3 & Hst' & Hrest3).
    rewrite Hs in Hs'. rewrite Hp in Hp'. rewrite Hst in Hst'.
    injection Hs' as _ _ ->. injection Hp' as _ ->. injection Hst' as _ ->.
    rewrite Ht in Hrun. injection Hrun as <- _ <-.
    split; [reflexivity|]. split; [reflexivity|].
    (* the only fetch of the trace is the one of [sendToSlack] *)
    assert (Hbefore : noFetch (digestCall platform context :: (KvGet errorHash r0 :: rest0) ++
                               AiRun MODEL_ANALYSIS (createAIPrompt context) r1 :: rest1) = true).
    { unfold noFetch in *. cbn [forallb app isFetch negb digestCall andb].
      rewrite forallb_app, Hrest0. cbn [forallb isFetch negb andb]. exact Hrest1. }
    assert (Hsame : Fetch u req answer =
                    Fetch (SLACK_WEBHOOK_URL env)
                          (slackRequest (formatSlackMessage context summary)) r2).
    { cbn [app] in Hin.
      destruct Hin as [Heq | Hin]; [unfold digestCall in Heq; discriminate|].
      destruct Hin as [Heq | Hin]; [discriminate|].
      apply in_app_or in Hin as [Hin | Hin].
      { not_in_by Hin Hrest0. }
      destruct Hin as [Heq | Hin]; [discriminate|].
      apply in_app_or in Hin as [Hin | Hin].
      { not_in_by Hin Hrest1. }
      destruct Hin as [Heq | Hin]; [now symmetry|].
      apply in_app_or in Hin as [Hin | Hin].
      - destruct (failedDelivery r2) eqn:Hr2.
        + destruct (Hbad eq_refl) as (err & ->). destruct Hin as [Heq | []]. discriminate.
        + rewrite (Hgood eq_refl) in Hin. destruct Hin.
      - destruct Hin as [Heq | Hin]; [discriminate|].
        apply consoleOnly_noFetch in Hrest3.
        not_in_by Hin Hrest3. }
    injection Hsame as -> -> ->.
    destruct (Hbad Hfail) as (err & ->).
    exists (digestCall platform context :: (KvGet errorHash r0 :: rest0) ++
            AiRun MODEL_ANALYSIS (createAIPrompt context) r1 :: rest1), err, r3, rest3.
    split; [|split; [exact Hbefore | exact Hrest3]].
    cbn [app]. rewrite <- !app_assoc. reflexivity.
Qed.

Lemma failed_delivery_is_logged_and_hash_stored_witness :
  let run := tailEvent Mock.platform Mock.orderEvent Mock.env Mock.slack500World in
  let sent := Fetch (SLACK_WEBHOOK_URL Mock.env)
                (slackRequest (formatSlackMessage Mock.orderContext
                   (JStr "answer of @cf/meta/llama-3.3-70b-instruct-fp8-fast")))
                (Returns {| status := 500 |}) in
  fingerprinted Mock.platform Mock.orderEvent Mock.orderContext Mock.orderHash /\
  In sent (trace run) /\
  failedDelivery (Returns {| status := 500 |}) = true /\
  result run = Returns tt.
Proof.
  intros run sent.
  assert (Hf : fingerprinted Mock.platform Mock.orderEvent Mock.orderContext Mock.orderHash).
  { repeat split; by_evaluation. }
  assert (Hin : In sent (trace run)).
  { vm_compute. do 4 right. left. reflexivity. }
  split; [exact Hf|]. split; [exact Hin|]. split; [reflexivity|].
  assert (Hrun : run = (result run, final run, trace run)).
  { destruct run as [[r w] t]. reflexivity. }
  exact (proj1 (failed_delivery_is_logged_and_hash_stored Mock.platform Mock.env
                  Mock.orderEvent Mock.orderContext Mock.orderHash Mock.slack500World
                  (final run) (result run) (trace run) _ _ _ Hf Hrun Hin eq_refl)).
Defined.

(** *** Analysis *)

(** C5. If one of the two calls to the AI binding throws, whichever it is,
    [generateErrorSummary] returns the string "Unable to generate AI
    analysis" and does not throw; an event that reached the analysis is then
    still formatted with that string and posted. *)
Theorem inference_failure_yields_fallback
    {Σ : Type} (env : Env Σ) (context : Context) (σ1 σ2 : Σ)
    (res : Outcome JsVal) (t2 : list Effect) (model content : string) (e : Thrown) :
  generateErrorSummary context env σ1 = (res, σ2, t2) ->
  In (AiRun model content (Throws e)) t2 ->
  res = Returns (JStr "Unable to generate AI analysis") /\
  forall (platform : Platform Σ) (event : JsVal) (errorHash : string) (σ : Σ) (t1 : list Effect),
    fingerprinted platform event context errorHash ->
    checkDuplicateError errorHash env σ = (Returns false, σ1, t1) ->
    exists σ' answer t,
      tailEvent platform event env σ = (Returns tt, σ', t) /\
      In (Fetch (SLACK_WEBHOOK_URL env)
            (slackRequest (formatSlackMessage context (JStr "Unable to generate AI analysis")))
            answer) t.
Proof.
  intros Hrun Hin.
  destruct (generateErrorSummary_spec env context σ1)
    as (summary & σ2' & r1 & rest1 & Hs & _ & Hfallback).
  rewrite Hrun in Hs. injection Hs as Hres Hσ Ht2. subst res σ2'.
  rewrite <- Ht2 in Hfallback. rewrite (Hfallback _ _ _ Hin) in *. split; [reflexivity|].
  intros platform event errorHash σ t1 Hf Hc.
  destruct (tailEvent_fresh platform env _ _ _ _ _ _ Hf Hc)
    as (summary' & σ3 & t2' & σ4 & t3 & σ5 & t4 & Hs' & Hp & Hst & Ht).
  rewrite Hrun in Hs'. injection Hs' as <- <- <-.
  destruct (sendToSlack_spec platform env (formatSlackMessage context (JStr FALLBACK_SUMMARY)) σ2)
    as (σ4' & answer & rest3 & Hp' & _).
  rewrite Hp in Hp'. injection Hp' as _ ->.
  exists σ5, answer. eexists. split; [exact Ht|].
  apply in_cons, in_or_app. right. apply in_or_app. right. apply in_or_app. left.
  left. reflexivity.
Qed.

Lemma inference_failure_yields_fallback_witness :
  let run := generateErrorSummary Mock.orderContext Mock.env Mock.aiDownWorld in
  In (AiRun MODEL_SUMMARY (summaryPromptOf (JStr "analysis")) (Throws Mock.unavailable))
     (trace run) /\
  result run = Returns (JStr "Unable to generate AI analysis").
Proof.
  intros run.
  assert (Hin : In (AiRun MODEL_SUMMARY (summaryPromptOf (JStr "analysis"))
                      (Throws Mock.unavailable)) (trace run)).
  { vm_compute. right. left. reflexivity. }
  split; [exact Hin|].
  assert (Hrun : run = (result run, final run, trace run)).
  { destruct run as [[r w] t]. reflexivity. }
  exact (proj1 (inference_failure_yields_fallback Mock.env Mock.orderContext Mock.aiDownWorld
                  (final run) (result run) (trace run) _ _ _ Hrun Hin)).
Defined.

(** *** The noise filter *)

(** The three names of the test scenario are accepted by the patterns. *)
Lemma listed_names_are_junk :
  junkName "favicon.ico" /\ junkName "robots.txt" /\ junkName "apple-touch-icon.png".
Proof.
  split; [|split].
  - left. exists "ico". repeat split. discriminate.
  - right. left. reflexivity.
  - right. right. exists "touch-icon". repeat split. discriminate.
Qed.

(** C6. An exception whose url is "favicon." followed by an extension,
    "robots.txt" or "apple-<name>.png" (so "favicon.ico" and
    "apple-touch-icon.png" among them) is dropped: the only effect of the
    event is the line "Ignoring URL: ..." on the console. No digest is
    computed, the store, the AI binding and the webhook are not called, the
    outside world is left as it was, and the loop goes on with the next event. *)
Theorem junk_url_is_dropped_before_fingerprinting
    {Σ : Type} (platform : Platform Σ) (env : Env Σ) (event : JsVal)
    (context : Context) (u : string) (σ : Σ) :
  getProp event "outcome" = Returns (JStr "exception") ->
  extractContext platform event = Returns context ->
  url context = JStr u ->
  junkName u ->
  tailEvent platform event env σ = (Returns tt, σ, [ConsoleLog ("Ignoring URL: " +:+ u)]) /\
  consoleOnly (trace (tailEvent platform event env σ)) = true /\
  forall rest,
    tail platform (event :: rest) env σ =
    let '(r, σ2, t2) := tail platform rest env σ in
    (r, σ2, ConsoleLog ("Ignoring URL: " +:+ u) :: t2).
Proof.
  intros Ho He Hu Hj.
  assert (Hi : ignored context = true).
  { apply ignored_spec. rewrite Hu. exact Hj. }
  pose proof (tailEvent_ignored platform env _ _ σ Ho He Hi) as Ht.
  rewrite Hu in Ht. cbn [toString] in Ht.
  split; [exact Ht|]. split; [now rewrite Ht|].
  intros rest. now rewrite tail_cons, Ht.
Qed.

Lemma junk_url_is_dropped_before_fingerprinting_witness :
  getProp Mock.faviconEvent "outcome" = Returns (JStr "exception") /\
  extractContext Mock.platform Mock.faviconEvent = Returns Mock.faviconContext /\
  junkName "favicon.ico" /\
  trace (tailEvent Mock.platform Mock.faviconEvent Mock.env Mock.world0) =
    [ConsoleLog "Ignoring URL: favicon.ico"].
Proof.
  assert (Ho : getProp Mock.faviconEvent "outcome" = Returns (JStr "exception")).
  { reflexivity. }
  assert (He : extractContext Mock.platform Mock.faviconEvent = Returns Mock.faviconContext).
  { by_evaluation. }
  assert (Hj : junkName "favicon.ico").
  { left. exists "ico". repeat split. discriminate. }
  split; [exact Ho|]. split; [exact He|]. split; [exact Hj|].
  destruct (junk_url_is_dropped_before_fingerprinting Mock.platform Mock.env
              Mock.faviconEvent Mock.faviconContext "favicon.ico" Mock.world0
              Ho He eq_refl Hj) as (Ht & _).
  rewrite Ht. reflexivity.
Defined.

(** C9. When the url of the context is undefined, no pattern matches (the
    matcher runs on the string "undefined"), so the event is not dropped by
    the filter: its processing goes on with the digest of its details. *)
Theorem absent_url_is_not_ignored
    {Σ : Type} (platform : Platform Σ) (env : Env Σ) (event : JsVal)
    (context : Context) (σ : Σ) :
  getProp event "outcome" = Returns (JStr "exception") ->
  extractContext platform event = Returns context ->
  url context = JUndefined ->
  ignored context = false /\
  exists res σ' rest,
    tailEvent platform event env σ = (res, σ', digestCall platform context :: rest).
Proof.
  intros Ho He Hu.
  assert (Hi : ignored context = false).
  { unfold ignored. rewrite Hu. vm_compute. reflexivity. }
  split; [exact Hi|].
  rewrite (tailEvent_hashed platform env _ _ σ Ho He Hi).
  destruct (fingerprintOf platform context) as [errorHash|e].
  - destruct (fromDuplicateCheck platform context errorHash env σ) as [[r σ1] t]. eauto.
  - eauto.
Qed.

Lemma absent_url_is_not_ignored_witness :
  getProp Mock.cronEvent "outcome" = Returns (JStr "exception") /\
  extractContext Mock.platform Mock.cronEvent = Returns Mock.cronContext /\
  url Mock.cronContext = JUndefined /\
  ignored Mock.cronContext = false.
Proof.
  assert (He : extractContext Mock.platform Mock.cronEvent = Returns Mock.cronContext).
  { by_evaluation. }
  split; [reflexivity|]. split; [exact He|]. split; [reflexivity|].
  exact (proj1 (absent_url_is_not_ignored Mock.platform Mock.env Mock.cronEvent
                  Mock.cronContext Mock.world0 eq_refl He eq_refl)).
Defined.



(** A path is not a bare file name either. *)
Example robots_path_is_not_ignored :
  forall context, url context = JStr "/robots.txt" -> ignored context = false.
Proof.
  intros context Hu. unfold ignored. rewrite Hu. vm_compute. reflexivity.
Qed.

(** *** Context extraction *)




(** *** The batch *)

(** A throw of the local steps of an event leaves [tail]: the events after
    it are not processed. *)
Lemma local_failure_leaves_tail
    {Σ : Type} (platform : Platform Σ) (env : Env Σ) (event : JsVal)
    (rest : list JsVal) (e : Thrown) (σ : Σ) :
  localSteps platform event = Throws e ->
  exists t1, tail platform (event :: rest) env σ = (Throws e, σ, t1) /\
             t1 = trace (tailEvent platform event env σ).
Proof.
  unfold localSteps. intros H. rewrite tail_cons.
  destruct (getProp event "outcome") as [v|e0] eqn:Ho.
  - cbn [mbind Outcome_bind obind] in H.
    destruct (strictEqualsString v "exception") eqn:Hv; [|discriminate].
    apply strictEqualsString_true in Hv. subst v.
    destruct (extractContext platform event) as [context|e1] eqn:He.
    + cbn [mbind Outcome_bind obind] in H.
      destruct (ignored context) eqn:Hi; [discriminate|].
      destruct (fingerprintOf platform context) as [h|e2] eqn:Hd; [discriminate|].
      injection H as ->.
      rewrite (tailEvent_digest_throws platform env _ _ _ σ Ho He Hi Hd). eauto.
    + injection H as ->. rewrite (tailEvent_extract_throws platform env _ _ σ Ho He). eauto.
  - injection H as ->. rewrite (tailEvent_outcome_throws platform env _ _ σ Ho). eauto.
Qed.




(* ===================================================================== *)
(** ** The end-to-end scenarios on the concrete world *)
(* ===================================================================== *)

Example isoString_epoch : isoString 0 = "1970-01-01T00:00:00.000Z".
Proof. reflexivity. Qed.

Example isoString_leap_day : isoString 951782400000 = "2000-02-29T00:00:00.000Z".
Proof. reflexivity. Qed.

Example isoString_before_epoch : isoString (-1) = "1969-12-31T23:59:59.999Z".
Proof. reflexivity. Qed.

Example isoString_last_instant : isoString maxTime = "+275760-09-13T00:00:00.000Z".
Proof. reflexivity. Qed.

Example hexOf_pads_each_byte : hexOf [x00; x0a; xff] = "000aff".
Proof. reflexivity. Qed.

Example orderEvent_context :
  extractContext Mock.platform Mock.orderEvent = Returns Mock.orderContext.
Proof. vm_compute. reflexivity. Qed.

Example orderEvent_hashed_text :
  errorDetailsText Mock.orderContext =
  "{" +:+ quoteJSON "scriptName" +:+ ":" +:+ quoteJSON "api" +:+ "," +:+
  quoteJSON "exceptions" +:+ ":" +:+ quoteJSON "TypeError: x is undefined" +:+ "," +:+
  quoteJSON "url" +:+ ":" +:+ quoteJSON "/orders/42" +:+ "," +:+
  quoteJSON "method" +:+ ":" +:+ quoteJSON "POST" +:+ "}".
Proof. vm_compute. reflexivity. Qed.

(** A missing url or method is left out of the hashed text. *)
Example cronEvent_hashed_text :
  errorDetailsText Mock.cronContext =
  "{" +:+ quoteJSON "scriptName" +:+ ":" +:+ quoteJSON "cron" +:+ "," +:+
  quoteJSON "exceptions" +:+ ":" +:+ quoteJSON "Error: boom" +:+ "}".
Proof. vm_compute. reflexivity. Qed.

(** First sighting: digest, lookup, two inference calls, one post, one put;
    the store then holds the fingerprint for 3600 seconds. *)
Example first_sighting_is_reported :
  let run := tailEvent Mock.platform Mock.orderEvent Mock.env Mock.world0 in
  result run = Returns tt /\
  map isFetch (trace run) = [false; false; false; false; true; false] /\
  map isAiRun (trace run) = [false; false; true; true; false; false] /\
  Mock.kv (final run) !! Mock.orderHash = Some ("true", 3600).
Proof. vm_compute. repeat split; reflexivity. Qed.

(** The same event twice in a batch: one post, two inference calls in all. *)
Example repeated_event_is_reported_once :
  let run := tail Mock.platform [Mock.orderEvent; Mock.orderEvent] Mock.env Mock.world0 in
  result run = Returns tt /\
  length (filter (fun e => isFetch e = true) (trace run)) = 1%nat /\
  length (filter (fun e => isAiRun e = true) (trace run)) = 2%nat.
Proof. vm_compute. repeat split; reflexivity. Qed.

(** A webhook that answers 500: the failure is logged and the fingerprint is
    in the store afterwards. *)
Example failed_post_still_records :
  let run := tailEvent Mock.platform Mock.orderEvent Mock.env Mock.slack500World in
  result run = Returns tt /\
  Mock.kv (final run) !! Mock.orderHash = Some ("true", 3600) /\
  nth 5 (trace run) (ConsoleLog "") =
    ConsoleError "Error sending to Slack:" (Error_ "Slack API responded with status: 500").
Proof. vm_compute. repeat split; reflexivity. Qed.

(** The first inference call fails: the message carries the fallback. *)
Example outage_still_posts_the_fallback :
  let run := tailEvent Mock.platform Mock.orderEvent Mock.env Mock.outageWorld in
  result run = Returns tt /\
  exists answer,
    In (Fetch (SLACK_WEBHOOK_URL Mock.env)
          (slackRequest (formatSlackMessage Mock.orderContext (JStr FALLBACK_SUMMARY)))
          answer) (trace run).
Proof.
  split; [vm_compute; reflexivity|]. eexists. vm_compute. do 5 right. left. reflexivity.
Qed.

(* ===================================================================== *)
(** ** Further properties of the worker *)
(* ===================================================================== *)

Module StageFacts.

Lemma stages_app t1 t2 : stages (t1 ++ t2) = stages t1 ++ stages t2.
Proof.
  induction t1 as [|e t1 IH]; [reflexivity|].
  cbn [app stages]. destruct (stage e); cbn [app]; now rewrite IH.
Qed.

Lemma stages_consoleOnly t : consoleOnly t = true -> stages t = [].
Proof.
  induction t as [|e t IH]; [reflexivity|]. cbn [consoleOnly forallb].
  intros H. apply andb_true_iff in H as [He Ht].
  destruct e; try discriminate; cbn [stages stage]; exact (IH Ht).
Qed.


Section StageFacts.
Context {Σ : Type} (platform : Platform Σ) (env : Env Σ).

Lemma generateErrorSummary_stages context σ :
  let s := stages (trace (generateErrorSummary context env σ)) in
  s = [SAnalysis] \/ s = [SAnalysis; SAnalysis].
Proof.
  rewrite generateErrorSummary_run. cbv zeta.
  destruct (AI_run env MODEL_ANALYSIS _ σ) as [[a|e] σ1]; [|left; reflexivity].
  destruct (getProp a "response") as [analysis|e]; [|left; reflexivity].
  destruct (AI_run env MODEL_SUMMARY _ σ1) as [[s|e] σ2]; [|right; reflexivity].
  destruct (getProp s "response") as [summary|e]; right; reflexivity.
Qed.

Lemma sendToSlack_stages message σ :
  stages (trace (sendToSlack platform message env σ)) = [SPost].
Proof.
  destruct (sendToSlack_spec platform env message σ) as (σ1 & r & rest & -> & Hbad & Hgood).
  cbn [trace snd stages stage]. f_equal.
  destruct (failedDelivery r).
  - destruct (Hbad eq_refl) as (e & ->). reflexivity.
  - now rewrite (Hgood eq_refl).
Qed.

Lemma storeErrorHash_stages errorHash σ :
  stages (trace (storeErrorHash errorHash env σ)) = [SPut].
Proof.
  destruct (storeErrorHash_spec env errorHash σ) as (σ1 & r & rest & -> & Hrest).
  cbn [trace snd stages stage]. now rewrite (stages_consoleOnly _ Hrest).
Qed.

Lemma checkDuplicateError_stages errorHash σ :
  stages (trace (checkDuplicateError errorHash env σ)) = [SGet].
Proof.
  destruct (checkDuplicateError_spec env errorHash σ)
    as (b & σ1 & r & rest & -> & _ & Hrest).
  cbn [trace snd stages stage]. now rewrite (stages_consoleOnly _ Hrest).
Qed.

(** The services one event reaches. *)
Lemma tailEvent_stages event σ :
  let s := stages (trace (tailEvent platform event env σ)) in
  s = [] \/ s = [SDigest] \/ s = [SDigest; SGet] \/
  s = [SDigest; SGet; SAnalysis; SPost; SPut] \/
  s = [SDigest; SGet; SAnalysis; SAnalysis; SPost; SPut].
Proof.
  cbv zeta.
  destruct (getProp event "outcome") as [v|e0] eqn:Ho.
  2:{ rewrite (tailEvent_outcome_throws platform env _ _ σ Ho). left. reflexivity. }
  destruct (strictEqualsString v "exception") eqn:Hv.
  2:{ rewrite (tailEvent_other_outcome platform env _ _ σ Ho).
      - left. reflexivity.
      - intros ->. discriminate. }
  apply strictEqualsString_true in Hv. subst v.
  destruct (extractContext platform event) as [context|e1] eqn:He.
  2:{ rewrite (tailEvent_extract_throws platform env _ _ σ Ho He). left. reflexivity. }
  destruct (ignored context) eqn:Hi.
  { rewrite (tailEvent_ignored platform env _ _ σ Ho He Hi). left. reflexivity. }
  destruct (fingerprintOf platform context) as [h|e2] eqn:Hd.
  2:{ rewrite (tailEvent_digest_throws platform env _ _ _ σ Ho He Hi Hd).
      right. left. reflexivity. }
  assert (Hf : fingerprinted platform event context h) by (repeat split; assumption).
  pose proof (checkDuplicateError_stages h σ) as Hget.
  destruct (checkDuplicateError h env σ) as [[[b|e3] σ1] t1] eqn:Hc.
  2:{ destruct (checkDuplicateError_spec env h σ) as (b & ? & ? & ? & Hc' & _).
      rewrite Hc in Hc'. discriminate. }
  cbn [trace snd] in Hget. destruct b.
  - rewrite (tailEvent_duplicate platform env _ _ _ _ _ _ Hf Hc).
    right. right. left. cbn [trace snd stages stage digestCall].
    now rewrite stages_app, Hget.
  - destruct (tailEvent_fresh platform env _ _ _ _ _ _ Hf Hc)
      as (summary & σ2 & t2 & σ3 & t3 & σ4 & t4 & Hs & Hp & Hst & Ht).
    pose proof (generateErrorSummary_stages context σ1) as Hai.
    pose proof (sendToSlack_stages (formatSlackMessage context summary) σ2) as Hpost.
    pose proof (storeErrorHash_stages h σ3) as Hput.
    rewrite Hs in Hai. rewrite Hp in Hpost. rewrite Hst in Hput.
    cbn [trace snd] in Hai, Hpost, Hput. rewrite Ht.
    cbn [trace snd stages stage digestCall].
    rewrite !stages_app, Hget, Hpost, Hput.
    right. right. right. destruct Hai as [-> | ->]; [left | right]; reflexivity.
Qed.

End StageFacts.

End StageFacts.

Import StageFacts.

Module BatchFacts.

Section BatchFacts.
Context {Σ : Type} (platform : Platform Σ) (env : Env Σ).


End BatchFacts.

End BatchFacts.

Import BatchFacts.

(** *** The loop *)

(** X1. Events whose outcome can be read and is not "exception" are passed
    over: a batch made of such events calls no service, writes nothing to
    the console and leaves the outside world as it was. *)
Theorem other_outcomes_are_passed_over
    {Σ : Type} (platform : Platform Σ) (env : Env Σ) (events : list JsVal) (σ : Σ) :
  forallb skipped events = true ->
  tail platform events env σ = (Returns tt, σ, []).
Proof.
  induction events as [|event events IH]; [reflexivity|].
  cbn [forallb]. intros H. apply andb_true_iff in H as [Hev Hall].
  unfold skipped in Hev.
  destruct (getProp event "outcome") as [v|e] eqn:Ho; [|discriminate].
  apply negb_true_iff in Hev.
  rewrite tail_cons, (tailEvent_other_outcome platform env _ _ σ Ho).
  - now rewrite (IH Hall).
  - intros ->. discriminate.
Qed.

Lemma other_outcomes_are_passed_over_witness :
  forallb skipped [okEvent; cpuEvent; JNum 7] = true /\
  tail Mock.platform [okEvent; cpuEvent; JNum 7] Mock.env Mock.outageWorld =
    (Returns tt, Mock.outageWorld, []).
Proof.
  split; [reflexivity|].
  apply (other_outcomes_are_passed_over Mock.platform Mock.env
           [okEvent; cpuEvent; JNum 7] Mock.outageWorld).
  reflexivity.
Defined.

(** X2. A batch in two parts: when [tail] returns on the first part,
    running it on the whole batch makes the calls of the first part followed
    by those of the second part, run from the world the first part left;
    when it throws on the first part, the second part is not looked at. *)
Theorem tail_of_two_parts
    {Σ : Type} (platform : Platform Σ) (env : Env Σ)
    (events1 events2 : list JsVal) (σ : Σ) :
  tail platform (events1 ++ events2) env σ =
  match tail platform events1 env σ with
  | (Returns _, σ1, t1) =>
      let '(r, σ2, t2) := tail platform events2 env σ1 in (r, σ2, t1 ++ t2)
  | (Throws e, σ1, t1) => (Throws e, σ1, t1)
  end.
Proof.
  revert σ. induction events1 as [|event events1 IH]; intros σ.
  - cbn [app]. change (tail platform [] env σ) with (Returns tt, σ, @nil Effect).
    cbv iota beta. destruct (tail platform events2 env σ) as [[r σ2] t2]. reflexivity.
  - cbn [app]. rewrite !tail_cons.
    destruct (tailEvent platform event env σ) as [[[[]|e] σ1] t1]; [|reflexivity].
    rewrite IH.
    destruct (tail platform events1 env σ1) as [[[[]|e] σ2] t2]; [|reflexivity].
    destruct (tail platform events2 env σ2) as [[r σ3] t3].
    now rewrite app_assoc.
Qed.

(** X3. A throw of the local steps of an event (reading its outcome,
    extracting the context, hashing) ends the batch with that exception:
    the world is left as it was before the event, the event has called no
    service except, at most, the digest, and the events after it leave no
    trace. *)
Theorem local_failure_ends_the_batch
    {Σ : Type} (platform : Platform Σ) (env : Env Σ) (event : JsVal)
    (rest : list JsVal) (e : Thrown) (σ : Σ) :
  localSteps platform event = Throws e ->
  exists t1,
    tail platform (event :: rest) env σ = (Throws e, σ, t1) /\
    (t1 = [] \/ exists context, t1 = [digestCall platform context]).
Proof.
  unfold localSteps. intros H. rewrite tail_cons.
  destruct (getProp event "outcome") as [v|e0] eqn:Ho.
  - cbn [mbind Outcome_bind obind] in H.
    destruct (strictEqualsString v "exception") eqn:Hv; [|discriminate].
    apply strictEqualsString_true in Hv. subst v.
    destruct (extractContext platform event) as [context|e1] eqn:He.
    + cbn [mbind Outcome_bind obind] in H.
      destruct (ignored context) eqn:Hi; [discriminate|].
      destruct (fingerprintOf platform context) as [h|e2] eqn:Hd; [discriminate|].
      injection H as ->.
      rewrite (tailEvent_digest_throws platform env _ _ _ σ Ho He Hi Hd). eauto.
    + injection H as ->. rewrite (tailEvent_extract_throws platform env _ _ σ Ho He). eauto.
  - injection H as ->. rewrite (tailEvent_outcome_throws platform env _ _ σ Ho). eauto.
Qed.

Lemma local_failure_ends_the_batch_witness :
  localSteps Mock.platform JNull = Throws TypeError /\
  exists t1,
    tail Mock.platform [JNull; Mock.orderEvent] Mock.env Mock.world0 =
      (Throws TypeError, Mock.world0, t1) /\
    (t1 = [] \/ exists context, t1 = [digestCall Mock.platform context]).
Proof.
  split; [reflexivity|].
  exact (local_failure_ends_the_batch Mock.platform Mock.env JNull [Mock.orderEvent]
           TypeError Mock.world0 eq_refl).
Defined.


(** X5. Around a post: whenever the processing of an event posts to the
    webhook, the calls before the post are the digest, the lookup and one or
    two analysis calls, in that order, and the only call after it is the put. *)
Theorem post_comes_after_analysis_and_before_put
    {Σ : Type} (platform : Platform Σ) (env : Env Σ) (event : JsVal) (σ : Σ)
    (before after : list Effect) (u : JsVal) (req : Request) (answer : Outcome Response) :
  trace (tailEvent platform event env σ) = before ++ Fetch u req answer :: after ->
  (stages before = [SDigest; SGet; SAnalysis] \/
   stages before = [SDigest; SGet; SAnalysis; SAnalysis]) /\
  stages after = [SPut].
Proof.
  intros Ht.
  pose proof (tailEvent_stages platform env event σ) as Hs. cbv zeta in Hs.
  rewrite Ht, stages_app in Hs. cbn [stages stage] in Hs.
  set (a := stages before) in *. set (b := stages after) in *. clearbody a b.
  destruct a as [|? [|? [|? [|? [|? [|? [|? a]]]]]]];
    destruct Hs as [H | [H | [H | [H | H]]]]; cbn [app] in H; try discriminate H;
    injection H; intros; subst; auto.
Qed.

Lemma post_comes_after_analysis_and_before_put_witness :
  let t := trace (tailEvent Mock.platform Mock.orderEvent Mock.env Mock.world0) in
  let sent := Fetch (SLACK_WEBHOOK_URL Mock.env)
                (slackRequest (formatSlackMessage Mock.orderContext
                   (JStr "answer of @cf/meta/llama-3.3-70b-instruct-fp8-fast")))
                (Returns {| status := 200 |}) in
  t = firstn 4 t ++ sent :: skipn 5 t /\
  stages (skipn 5 t) = [SPut].
Proof.
  intros t sent.
  assert (Ht : t = firstn 4 t ++ sent :: skipn 5 t) by (vm_compute; reflexivity).
  split; [exact Ht|].
  exact (proj2 (post_comes_after_analysis_and_before_put Mock.platform Mock.env
                  Mock.orderEvent Mock.world0 _ _ _ _ _ Ht)).
Defined.

(** *** One event, step by step *)



(** X7. An answer of the AI binding that is null or undefined, without any
    throw, also ends in the fallback: reading its [response] raises a
    TypeError, which [generateErrorSummary] catches and logs. *)
Theorem empty_answer_yields_fallback
    {Σ : Type} (env : Env Σ) (context : Context) (σ σ' : Σ)
    (res : Outcome JsVal) (t : list Effect) (model content : string) (a : JsVal) :
  generateErrorSummary context env σ = (res, σ', t) ->
  In (AiRun model content (Returns a)) t ->
  nullish a = true ->
  res = Returns (JStr "Unable to generate AI analysis") /\
  In (ConsoleError "Error generating AI summary:" TypeError) t.
Proof.
  intros Hrun Hin Hn.
  assert (Hthrows : getProp a "response" = Throws TypeError).
  { destruct a; try discriminate; reflexivity. }
  rewrite generateErrorSummary_run in Hrun. cbv zeta in Hrun.
  destruct (AI_run env MODEL_ANALYSIS _ σ) as [[a1|e] σ1].
  2:{ injection Hrun as <- _ <-. destruct Hin as [H | [H | []]]; discriminate. }
  destruct (getProp a1 "response") as [analysis|e] eqn:H1.
  2:{ injection Hrun as <- _ <-. destruct Hin as [H | [H | []]]; [|discriminate].
      injection H as _ _ ->. rewrite Hthrows in H1. injection H1 as <-.
      split; [reflexivity | right; left; reflexivity]. }
  destruct (AI_run env MODEL_SUMMARY _ σ1) as [[a2|e] σ2].
  2:{ injection Hrun as <- _ <-. destruct Hin as [H | [H | [H | []]]]; try discriminate.
      injection H as _ _ ->. rewrite Hthrows in H1. discriminate. }
  destruct (getProp a2 "response") as [summary|e] eqn:H2.
  - injection Hrun as <- _ <-. destruct Hin as [H | [H | []]]; injection H as _ _ ->.
    + rewrite Hthrows in H1. discriminate.
    + rewrite Hthrows in H2. discriminate.
  - injection Hrun as <- _ <-. destruct Hin as [H | [H | [H | []]]]; try discriminate;
      injection H as _ _ ->.
    + rewrite Hthrows in H1. discriminate.
    + rewrite Hthrows in H2. injection H2 as <-.
      split; [reflexivity | right; right; left; reflexivity].
Qed.

Lemma empty_answer_yields_fallback_witness :
  let run := generateErrorSummary Mock.orderContext Mock.env nullAnswerWorld in
  In (AiRun MODEL_ANALYSIS (createAIPrompt Mock.orderContext) (Returns JNull)) (trace run) /\
  result run = Returns (JStr "Unable to generate AI analysis").
Proof.
  intros run.
  assert (Hin : In (AiRun MODEL_ANALYSIS (createAIPrompt Mock.orderContext) (Returns JNull))
                   (trace run)).
  { vm_compute. left. reflexivity. }
  split; [exact Hin|].
  assert (Hrun : run = (result run, final run, trace run)).
  { destruct run as [[r w] t]. reflexivity. }
  exact (proj1 (empty_answer_yields_fallback Mock.env Mock.orderContext nullAnswerWorld
                  (final run) (result run) (trace run) _ _ _ Hrun Hin eq_refl)).
Defined.

(** X8. [sendToSlack] posts once and never throws: whatever the webhook
    does, there is exactly one fetch, a POST of the serialized message with
    the JSON content type, and no retry; the console is written to exactly
    when the fetch threw or the status was outside 200..299, and in the
    latter case the logged error names the status. *)
Theorem sendToSlack_posts_once
    {Σ : Type} (platform : Platform Σ) (env : Env Σ) (message : JsVal) (σ : Σ) :
  exists answer σ1 logged,
    sendToSlack platform message env σ =
      (Returns tt, σ1,
       Fetch (SLACK_WEBHOOK_URL env)
         {| rq_method := "POST";
            rq_headers := [("Content-Type", "application/json")];
            rq_body := JSON_stringify message |} answer :: logged) /\
    fetch platform (SLACK_WEBHOOK_URL env) (slackRequest message) σ = (answer, σ1) /\
    logged =
      match answer with
      | Returns response =>
          if ok response then []
          else [ConsoleError "Error sending to Slack:"
                  (Error_ ("Slack API responded with status: " +:+
                           numToString (status response)))]
      | Throws e => [ConsoleError "Error sending to Slack:" e]
      end.
Proof.
  rewrite sendToSlack_run. cbv zeta.
  destruct (fetch platform _ _ σ) as [[response|e] σ1] eqn:Hfetch.
  - exists (Returns response), σ1. eexists. split; [reflexivity|]. split; reflexivity.
  - exists (Throws e), σ1. eexists. split; [reflexivity|]. split; reflexivity.
Qed.

(** X9. [checkDuplicateError] never throws, and it answers true exactly when
    the get returned something other than null: any stored value counts,
    the empty string and undefined included; null and a failed get do not. *)
Theorem duplicate_exactly_when_get_is_not_null
    {Σ : Type} (env : Env Σ) (errorHash : string) (σ : Σ) :
  exists isDuplicate,
    result (checkDuplicateError errorHash env σ) = Returns isDuplicate /\
    (isDuplicate = true <->
     exists stored σ1,
       ERROR_DEDUP_KV_get env errorHash σ = (Returns stored, σ1) /\ stored <> JNull).
Proof.
  rewrite checkDuplicateError_run.
  destruct (ERROR_DEDUP_KV_get env errorHash σ) as [[stored|e] σ1].
  - eexists. split; [reflexivity|]. split.
    + intros H. exists stored, σ1. split; [reflexivity|]. intros ->. discriminate.
    + intros (s & τ & Heq & Hne). injection Heq as <- <-.
      destruct stored; congruence.
  - exists false. split; [reflexivity|]. split; [discriminate|].
    intros (s & τ & Heq & _). discriminate.
Qed.

(** *** Deduplication over a store that keeps what is put *)

Module StoreFacts.

Lemma sameStore_refl w : sameStore w w.
Proof. split; reflexivity. Qed.






Section StoreFacts.
Context (parse : string -> TimeValue) (digest : string -> list byte -> Outcome (list byte)).




End StoreFacts.

End StoreFacts.

Import StoreFacts.





(** *** The fingerprint *)

Module HexFacts.

Lemma join_empty_cons p rest : join "" (p :: rest) = p +:+ join "" rest.
Proof.
  destruct rest as [|q rest]; cbn [join]; [now rewrite append_empty_r | reflexivity].
Qed.

Lemma hexOf_cons b rest :
  hexOf (b :: rest) = padStart0 2 (byteToString16 (Byte.to_N b)) +:+ hexOf rest.
Proof. unfold hexOf. cbn [map]. apply join_empty_cons. Qed.

(** A byte is printed as two lowercase digits that read back as the byte. *)
Lemma byte_digits b :
  let c1 := hexDigit (Byte.to_N b / 16) in
  let c2 := hexDigit (Byte.to_N b mod 16) in
  padStart0 2 (byteToString16 (Byte.to_N b)) = String c1 (String c2 "") /\
  isLowerHex c1 = true /\ isLowerHex c2 = true /\
  (hi ← hexValue c1; lo ← hexValue c2; Byte.of_N (hi * 16 + lo)) = Some b.
Proof. destruct b; vm_compute; repeat split. Qed.

End HexFacts.

Import HexFacts.

(** X12. The fingerprint [generateErrorHash] returns is the digest in
    lowercase hexadecimal, two characters a byte with the leading zero kept:
    its length is twice the number of bytes of the digest (64 characters for
    a SHA-256 digest) and it holds only 0-9 and a-f. The digest is the only
    call made and the world is not touched. *)
Theorem fingerprint_is_fixed_width_lowercase_hex
    {Σ : Type} (platform : Platform Σ) (context : Context) (σ σ' : Σ)
    (errorHash : string) (t : list Effect) :
  generateErrorHash platform context σ = (Returns errorHash, σ', t) ->
  exists hashBuffer,
    subtle_digest platform "SHA-256" (TextEncoder_encode (errorDetailsText context)) =
      Returns hashBuffer /\
    String.length errorHash = (2 * length hashBuffer)%nat /\
    forallb isLowerHex (list_ascii_of_string errorHash) = true /\
    σ' = σ /\
    t = [Digest "SHA-256" (TextEncoder_encode (errorDetailsText context)) (Returns hashBuffer)].
Proof.
  rewrite generateErrorHash_run. unfold fingerprintOf, digestCall.
  destruct (subtle_digest platform _ _) as [hashBuffer|e]; [|discriminate].
  cbn [mbind Outcome_bind obind]. intros H. injection H as <- <- <-.
  exists hashBuffer. split; [reflexivity|].
  assert (Hhex : String.length (hexOf hashBuffer) = (2 * length hashBuffer)%nat /\
                 forallb isLowerHex (list_ascii_of_string (hexOf hashBuffer)) = true).
  { induction hashBuffer as [|b rest [IHlen IHhex]]; [split; reflexivity|].
    rewrite hexOf_cons.
    destruct (byte_digits b) as (-> & H1 & H2 & _).
    rewrite !append_cons. change ("" +:+ hexOf rest) with (hexOf rest).
    cbn [String.length list_ascii_of_string forallb length].
    rewrite IHlen, H1, H2, IHhex. split; [lia | reflexivity]. }
  destruct Hhex as [Hlen Hdigits]. repeat split; assumption.
Qed.

Lemma fingerprint_is_fixed_width_lowercase_hex_witness :
  generateErrorHash Mock.platform Mock.orderContext Mock.world0 =
    (Returns Mock.orderHash, Mock.world0,
     [digestCall Mock.platform Mock.orderContext]) /\
  String.length Mock.orderHash = 8%nat.
Proof.
  assert (Hrun : generateErrorHash Mock.platform Mock.orderContext Mock.world0 =
                 (Returns Mock.orderHash, Mock.world0,
                  [digestCall Mock.platform Mock.orderContext])) by by_evaluation.
  split; [exact Hrun|].
  destruct (fingerprint_is_fixed_width_lowercase_hex Mock.platform Mock.orderContext
              Mock.world0 Mock.world0 Mock.orderHash _ Hrun)
    as (hashBuffer & Hd & Hlen & _).
  reflexivity.
Defined.

(** X13. Different digests never give the same fingerprint: the
    hexadecimal string reads back, two digits a byte, as the bytes it was
    made of. *)
Theorem fingerprint_reads_back_as_the_digest (hashArray : list byte) :
  unhex (hexOf hashArray) = Some hashArray /\
  forall other, hexOf other = hexOf hashArray -> other = hashArray.
Proof.
  assert (Hback : forall bytes, unhex (hexOf bytes) = Some bytes).
  { induction bytes as [|b rest IH]; [reflexivity|].
    rewrite hexOf_cons.
    destruct (byte_digits b) as (-> & _ & _ & Hb).
    rewrite !append_cons. change ("" +:+ hexOf rest) with (hexOf rest).
    cbn [unhex]. rewrite IH.
    destruct (hexValue (hexDigit (Byte.to_N b / 16))) as [hi|]; [|discriminate].
    destruct (hexValue (hexDigit (Byte.to_N b mod 16))) as [lo|]; [|discriminate].
    cbn [mbind option_bind] in Hb |- *. rewrite Hb. reflexivity. }
  split; [apply Hback|].
  intros other Heq. pose proof (Hback other) as Ho.
  rewrite Heq, Hback in Ho. congruence.
Qed.

Module JsonFacts.

Lemma append_assoc a b c : (a +:+ b) +:+ c = a +:+ (b +:+ c).
Proof.
  induction a as [|x a IH]; [reflexivity|]. now rewrite !append_cons, IH.
Qed.

(** One escaped character reads back as the character. *)
Lemma readEscaped_escapeChar c tl :
  readEscaped (escapeChar c +:+ tl) =
  (r ← readEscaped tl; Some (String c r.1, r.2)).
Proof. destruct c as [[] [] [] [] [] [] [] []]; reflexivity. Qed.

Lemma readEscaped_escapeString s rest :
  readEscaped (escapeString s +:+ String dquote rest) = Some (s, rest).
Proof.
  induction s as [|c s IH]; [reflexivity|].
  cbn [escapeString]. now rewrite append_assoc, readEscaped_escapeChar, IH.
Qed.

Lemma readQuoted_quoteJSON s rest : readQuoted (quoteJSON s +:+ rest) = Some (s, rest).
Proof.
  unfold quoteJSON. rewrite append_assoc, append_cons. cbn [readQuoted].
  change (Ascii.eqb dquote dquote) with true. cbv iota.
  change (String dquote "" +:+ rest) with (String dquote rest).
  apply readEscaped_escapeString.
Qed.

Lemma readMembers_more fuel key value rest :
  readMembers (S fuel) (quoteJSON key +:+ ":" +:+ quoteJSON value +:+ "," +:+ rest) =
  (members ← readMembers fuel rest; Some ((key, value) :: members)).
Proof.
  cbn [readMembers]. rewrite readQuoted_quoteJSON. cbn [mbind option_bind fst snd].
  change (expectChar ":" (":" +:+ quoteJSON value +:+ "," +:+ rest))
    with (Some (quoteJSON value +:+ "," +:+ rest)).
  cbn [mbind option_bind]. rewrite readQuoted_quoteJSON. reflexivity.
Qed.

Lemma readMembers_last fuel key value :
  readMembers (S fuel) (quoteJSON key +:+ ":" +:+ quoteJSON value +:+ "}") =
  Some [(key, value)].
Proof.
  cbn [readMembers]. rewrite readQuoted_quoteJSON. cbn [mbind option_bind fst snd].
  change (expectChar ":" (":" +:+ quoteJSON value +:+ "}"))
    with (Some (quoteJSON value +:+ "}")).
  cbn [mbind option_bind]. rewrite readQuoted_quoteJSON. reflexivity.
Qed.

(** The hashed text reads back as the members it was written from. *)
Lemma readDetails_errorDetailsText context :
  stringOrAbsent (scriptName context) = true ->
  stringOrAbsent (url context) = true ->
  stringOrAbsent (method context) = true ->
  readDetails (errorDetailsText context) = Some (detailMembers context).
Proof.
  unfold errorDetailsText, detailMembers.
  destruct (scriptName context) as [| | | | |s| |]; try discriminate;
    destruct (url context) as [| | | | |u| |]; try discriminate;
    destruct (method context) as [| | | | |m| |]; try discriminate;
    intros _ _ _;
    cbn [JSON_stringify serialize map concat app fst snd join default memberOf];
    unfold readDetails, id;
    rewrite ?append_assoc;
    match goal with
    | |- context [expectChar "{" ("{" +:+ ?X)] =>
        change (expectChar "{" ("{" +:+ X)) with (Some X)
    end;
    cbn [mbind option_bind];
    rewrite ?readMembers_more, ?readMembers_last;
    reflexivity.
Qed.

End JsonFacts.

Import JsonFacts.

(** X14. The text that is hashed tells the four details apart: for contexts
    whose scriptName, url and method are strings or absent, two contexts
    with the same hashed text have the same scriptName, exceptions, url and
    method. Only a collision of the digest can then give two different
    errors the same fingerprint. *)
Theorem same_hashed_text_means_same_details (c1 c2 : Context) :
  stringOrAbsent (scriptName c1) = true -> stringOrAbsent (url c1) = true ->
  stringOrAbsent (method c1) = true ->
  stringOrAbsent (scriptName c2) = true -> stringOrAbsent (url c2) = true ->
  stringOrAbsent (method c2) = true ->
  errorDetailsText c1 = errorDetailsText c2 ->
  scriptName c1 = scriptName c2 /\ exceptions c1 = exceptions c2 /\
  url c1 = url c2 /\ method c1 = method c2.
Proof.
  intros Hs1 Hu1 Hm1 Hs2 Hu2 Hm2 Htext.
  pose proof (readDetails_errorDetailsText c1 Hs1 Hu1 Hm1) as H1.
  pose proof (readDetails_errorDetailsText c2 Hs2 Hu2 Hm2) as H2.
  rewrite Htext, H2 in H1. injection H1 as Hmembers. unfold detailMembers in Hmembers.
  destruct (scriptName c1) as [| | | | |s1| |]; try discriminate;
    destruct (url c1) as [| | | | |u1| |]; try discriminate;
    destruct (method c1) as [| | | | |m1| |]; try discriminate;
    destruct (scriptName c2) as [| | | | |s2| |]; try discriminate;
    destruct (url c2) as [| | | | |u2| |]; try discriminate;
    destruct (method c2) as [| | | | |m2| |]; try discriminate;
    cbn [memberOf app] in Hmembers; try discriminate Hmembers;
    injection Hmembers; intros; repeat split; congruence.
Qed.

Lemma same_hashed_text_means_same_details_witness :
  errorDetailsText Mock.orderContext = errorDetailsText Mock.laterContext /\
  timestamp Mock.orderContext <> timestamp Mock.laterContext /\
  url Mock.orderContext = url Mock.laterContext.
Proof.
  assert (Htext : errorDetailsText Mock.orderContext = errorDetailsText Mock.laterContext).
  { reflexivity. }
  split; [exact Htext|]. split; [discriminate|].
  destruct (same_hashed_text_means_same_details Mock.orderContext Mock.laterContext
              eq_refl eq_refl eq_refl eq_refl eq_refl eq_refl Htext) as (_ & _ & Hu & _).
  exact Hu.
Defined.

(** X15. The same error at another time: two events with the same
    scriptName, the same inner event (request url and method) and the same
    exceptions get the same fingerprint, whatever their eventTimestamp and
    logs are. *)
Theorem same_error_at_another_time_has_same_fingerprint
    {Σ : Type} (platform : Platform Σ) (event1 event2 : JsVal) (c1 c2 : Context) :
  extractContext platform event1 = Returns c1 ->
  extractContext platform event2 = Returns c2 ->
  getOpt event1 "scriptName" = getOpt event2 "scriptName" ->
  getOpt event1 "event" = getOpt event2 "event" ->
  getOpt event1 "exceptions" = getOpt event2 "exceptions" ->
  errorDetailsText c1 = errorDetailsText c2 /\
  fingerprintOf platform c1 = fingerprintOf platform c2 /\
  forall σ, generateErrorHash platform c1 σ = generateErrorHash platform c2 σ.
Proof.
  intros He1 He2 Hs He Hx.
  destruct (extractContext_fields platform event1 c1 He1) as (_ & Hs1 & Hu1 & Hm1 & _ & Hx1).
  destruct (extractContext_fields platform event2 c2 He2) as (_ & Hs2 & Hu2 & Hm2 & _ & Hx2).
  assert (Htext : errorDetailsText c1 = errorDetailsText c2).
  { unfold errorDetailsText. rewrite Hs1, Hu1, Hm1, Hs2, Hu2, Hm2, Hs, He.
    rewrite Hx, Hx2 in Hx1. injection Hx1 as ->. reflexivity. }
  split; [exact Htext|].
  assert (Hfp : fingerprintOf platform c1 = fingerprintOf platform c2).
  { unfold fingerprintOf. now rewrite Htext. }
  split; [exact Hfp|].
  intros σ. rewrite !generateErrorHash_run. unfold digestCall. now rewrite Hfp, Htext.
Qed.

Lemma same_error_at_another_time_has_same_fingerprint_witness :
  extractContext Mock.platform Mock.orderEvent = Returns Mock.orderContext /\
  extractContext Mock.platform laterEvent = Returns Mock.laterContext /\
  timestamp Mock.orderContext <> timestamp Mock.laterContext /\
  fingerprintOf Mock.platform Mock.orderContext = fingerprintOf Mock.platform Mock.laterContext.
Proof.
  assert (He1 : extractContext Mock.platform Mock.orderEvent = Returns Mock.orderContext)
    by by_evaluation.
  assert (He2 : extractContext Mock.platform laterEvent = Returns Mock.laterContext)
    by by_evaluation.
  split; [exact He1|]. split; [exact He2|]. split; [discriminate|].
  exact (proj1 (proj2 (same_error_at_another_time_has_same_fingerprint Mock.platform
                         Mock.orderEvent laterEvent Mock.orderContext Mock.laterContext
                         He1 He2 eq_refl eq_refl eq_refl))).
Defined.

(** *** Events without a request or without a time *)



(** X17. The time of the context: an [eventTimestamp] that is null gives
    the epoch, "1970-01-01T00:00:00.000Z", instead of failing; one that is a
    number of milliseconds gives its ISO string, and is then within the
    range of a Date ([maxTime], 8.64e15 ms, on either side of the epoch). *)
Theorem time_of_the_context
    {Σ : Type} (platform : Platform Σ) (event : JsVal) (context : Context) :
  extractContext platform event = Returns context ->
  (getOpt event "eventTimestamp" = JNull ->
   timestamp context = "1970-01-01T00:00:00.000Z") /\
  (forall ms, getOpt event "eventTimestamp" = JNum ms ->
              Z.abs ms <= maxTime /\ timestamp context = isoString ms).
Proof.
  intros He.
  destruct (extractContext_fields platform event context He) as (Ht & _).
  split.
  - intros Hnull. rewrite Hnull in Ht. unfold isoOf in Ht.
    cbn [newDate toISOString] in Ht.
    assert (Hepoch : isoString 0 = "1970-01-01T00:00:00.000Z") by (vm_compute; reflexivity).
    congruence.
  - intros ms Hms. rewrite Hms in Ht. unfold isoOf in Ht. cbn [newDate] in Ht.
    unfold timeClip in Ht.
    destruct (Z.leb_spec (Z.abs ms) maxTime) as [Hrange|Hrange]; [|discriminate].
    cbn [toISOString] in Ht. split; [exact Hrange|].
    injection Ht as Ht. symmetry. exact Ht.
Qed.

Lemma time_of_the_context_witness :
  exists context,
    extractContext Mock.platform untimedEvent = Returns context /\
    timestamp context = "1970-01-01T00:00:00.000Z".
Proof.
  assert (He : extractContext Mock.platform untimedEvent =
               Returns {| timestamp := "1970-01-01T00:00:00.000Z"; scriptName := JStr "cron";
                          url := JUndefined; method := JUndefined; logs := "";
                          exceptions := "Error: boom" |}) by by_evaluation.
  eexists. split; [exact He|].
  exact (proj1 (time_of_the_context Mock.platform untimedEvent _ He) eq_refl).
Defined.
